(** * docker_log_redirect: a shallow embedding of [docker_log_redirect.py]

    The program follows the log output of a set of docker containers, one
    thread per container, and re-validates every hour that the threads are
    still alive.  This file embeds

    - [create_docker_log_threads] (the supervision pass),
    - [get_docker_log] (the body of one reader thread),
    - [populate_startup_variables] and [main] (configuration and the
      error handling around one pass),

    and states the properties of the specification about them.

    Python [str] values that the program itself builds (names, messages)
    are [string]; what reaches a logger is [text], a list of Unicode code
    points, because the lines decoded from a container's output are not
    confined to one byte per character.  Effects are threaded through a
    small state and exception monad; the interpreter's thread list, the
    operating system and the functions of the [ictools] library are
    collaborators of the program and appear as fields of one record. *)

From Stdlib Require Import String Ascii List Bool Arith NArith ZArith Lia.
From Stdlib Require Import Init.Byte DecimalString.
Import ListNotations.
Local Open Scope string_scope.

(* ===================================================================== *)
(** * Python string operations used by the program *)
(* ===================================================================== *)

(** [sub in s] on two [str]: [sub] occurs in [s] as a contiguous run. *)
Fixpoint contains (sub s : string) : bool :=
  match s with
  | EmptyString => prefix sub EmptyString
  | String _ s' => prefix sub s || contains sub s'
  end.

(** [s.replace(old, new)]: the occurrences of [old] are replaced from left
    to right, without overlap.  [skip] counts the characters of the
    occurrence just replaced that are still to be dropped.  With an empty
    [old] Python inserts [new] before every character and at the end. *)
Fixpoint replace_from (old new : string) (skip : nat) (s : string) : string :=
  match s with
  | EmptyString => EmptyString
  | String a s' =>
      match skip with
      | S k => replace_from old new k s'
      | O =>
          if prefix old s
          then new ++ replace_from old new (String.length old - 1) s'
          else String a (replace_from old new 0 s')
      end
  end.

(** [new] before every character of [s] and at its end. *)
Fixpoint intersperse (new s : string) : string :=
  match s with
  | EmptyString => new
  | String a s' => new ++ String a (intersperse new s')
  end.

Definition replace (old new s : string) : string :=
  match old with
  | EmptyString => intersperse new s
  | _ => replace_from old new 0 s
  end.

(** [sep.join(parts)]. *)
Fixpoint join (sep : string) (parts : list string) : string :=
  match parts with
  | [] => EmptyString
  | [p] => p
  | p :: rest => p ++ sep ++ join sep rest
  end.

(** [str(n)] for a non-negative and for a signed integer. *)
Definition str_nat (n : nat) : string := NilEmpty.string_of_uint (Nat.to_uint n).
Definition str_Z (z : Z) : string := NilZero.string_of_int (Z.to_int z).

(** Two lower-case hexadecimal digits, as in the escape [\xNN]. *)
Definition hex_digit (n : N) : ascii :=
  if (n <? 10)%N then ascii_of_N (48 + n) else ascii_of_N (87 + n).

Definition hex2 (a : ascii) : string :=
  let n := N_of_ascii a in
  String (hex_digit (n / 16)) (String (hex_digit (n mod 16)) EmptyString).

Definition quote1 : ascii := "'"%char.
Definition quote2 : ascii := "034"%char.
Definition backslash : ascii := "\"%char.

Fixpoint has_char (c : ascii) (s : string) : bool :=
  match s with
  | EmptyString => false
  | String a s' => Ascii.eqb a c || has_char c s'
  end.

(** [repr(s)] of a [str] whose characters are below U+0100: single quotes
    unless the string has a single and no double quote; backslash, the
    chosen quote, tab, newline and carriage return are escaped and the
    other non-printable characters are written [\xNN]. *)
Fixpoint repr_chars (q : ascii) (s : string) : string :=
  match s with
  | EmptyString => EmptyString
  | String a s' =>
      let n := N_of_ascii a in
      (if Ascii.eqb a backslash then String backslash (String backslash EmptyString)
       else if Ascii.eqb a q then String backslash (String q EmptyString)
       else if (n =? 9)%N then String backslash "t"
       else if (n =? 10)%N then String backslash "n"
       else if (n =? 13)%N then String backslash "r"
       else if (n <? 32)%N || ((127 <=? n)%N && (n <=? 160)%N) || (n =? 173)%N
            then String backslash (String "x"%char (hex2 a))
       else String a EmptyString)
      ++ repr_chars q s'
  end.

Definition repr_str (s : string) : string :=
  let q := if has_char quote1 s && negb (has_char quote2 s) then quote2 else quote1 in
  String q (repr_chars q s ++ String q EmptyString).

(** [repr] of a list of [str]. *)
Definition repr_str_list (l : list string) : string :=
  "[" ++ join ", " (map repr_str l) ++ "]".

(** A Python [str] as the sequence of its code points. *)
Definition text : Type := list N.

Definition text_of_string (s : string) : text :=
  map N_of_ascii (list_ascii_of_string s).
Coercion text_of_string : string >-> text.

(** [str.isspace] for one character: the code points CPython's
    [_PyUnicode_IsWhitespace] accepts. *)
Definition isspace (c : N) : bool :=
  (((9 <=? c) && (c <=? 13)) || ((28 <=? c) && (c <=? 32))
   || (c =? 133) || (c =? 160) || (c =? 5760)
   || ((8192 <=? c) && (c <=? 8202))
   || (c =? 8232) || (c =? 8233) || (c =? 8239) || (c =? 8287) || (c =? 12288))%N.

Fixpoint lstrip (s : text) : text :=
  match s with
  | [] => []
  | c :: s' => if isspace c then lstrip s' else s
  end.

Definition rstrip (s : text) : text := rev (lstrip (rev s)).

(** [s.strip()] with no argument: whitespace is dropped at both ends. *)
Definition strip (s : text) : text := rstrip (lstrip s).

(* ===================================================================== *)
(** * [bytes.decode('utf-8')] *)
(* ===================================================================== *)

Definition continuation (b : N) : bool := ((128 <=? b) && (b <=? 191))%N.

Definition between (lo b hi : N) : bool := ((lo <=? b) && (b <=? hi))%N.

(** The strict decoder (the default [errors='strict']): [inr pos] is the
    position of the first byte that cannot be decoded.  Well-formed
    sequences are those of the Unicode standard: no overlong form, no
    surrogate, nothing above U+10FFFF. *)
Fixpoint utf_8_decode (pos : nat) (bs : list byte) : text + nat :=
  match bs with
  | [] => inl []
  | b0 :: r0 =>
      let c0 := Byte.to_N b0 in
      let more (c : N) (tl : text + nat) : text + nat :=
          match tl with
          | inl t => inl (c :: t)
          | inr p => inr p
          end in
      if (c0 <? 128)%N then more c0 (utf_8_decode (pos + 1) r0)
      else if between 194 c0 223 then
        match r0 with
        | b1 :: r1 =>
            let c1 := Byte.to_N b1 in
            if continuation c1
            then more ((c0 - 192) * 64 + (c1 - 128))%N (utf_8_decode (pos + 2) r1)
            else inr pos
        | _ => inr pos
        end
      else if between 224 c0 239 then
        match r0 with
        | b1 :: b2 :: r2 =>
            let c1 := Byte.to_N b1 in
            let c2 := Byte.to_N b2 in
            if between (if (c0 =? 224)%N then 160 else 128) c1
                       (if (c0 =? 237)%N then 159 else 191)
               && continuation c2
            then more ((c0 - 224) * 4096 + (c1 - 128) * 64 + (c2 - 128))%N
                      (utf_8_decode (pos + 3) r2)
            else inr pos
        | _ => inr pos
        end
      else if between 240 c0 244 then
        match r0 with
        | b1 :: b2 :: b3 :: r3 =>
            let c1 := Byte.to_N b1 in
            let c2 := Byte.to_N b2 in
            let c3 := Byte.to_N b3 in
            if between (if (c0 =? 240)%N then 144 else 128) c1
                       (if (c0 =? 244)%N then 143 else 191)
               && continuation c2 && continuation c3
            then more ((c0 - 240) * 262144 + (c1 - 128) * 4096
                       + (c2 - 128) * 64 + (c3 - 128))%N
                      (utf_8_decode (pos + 4) r3)
            else inr pos
        | _ => inr pos
        end
      else inr pos
  end.

(** What CPython's decoder reports of the sequence that begins with an
    undecodable byte: the reason, and the number of bytes the error
    covers. *)
Definition utf_8_defect (bs : list byte) : string * nat :=
  let truncated (covered : nat) := ("unexpected end of data", covered) in
  let broken (covered : nat) := ("invalid continuation byte", covered) in
  match map Byte.to_N bs with
  | [] => truncated 0
  | c0 :: r0 =>
      if between 194 c0 223 then
        match r0 with
        | [] => truncated 1
        | _ => broken 1
        end
      else if between 224 c0 239 then
        match r0 with
        | [] => truncated 1
        | c1 :: r1 =>
            if negb (between (if (c0 =? 224)%N then 160 else 128) c1
                             (if (c0 =? 237)%N then 159 else 191))
            then broken 1
            else match r1 with
                 | [] => truncated 2
                 | _ => broken 2
                 end
        end
      else if between 240 c0 244 then
        match r0 with
        | [] => truncated 1
        | c1 :: r1 =>
            if negb (between (if (c0 =? 240)%N then 144 else 128) c1
                             (if (c0 =? 244)%N then 143 else 191))
            then broken 1
            else match r1 with
                 | [] => truncated 2
                 | c2 :: r2 =>
                     if negb (continuation c2) then broken 2
                     else match r2 with
                          | [] => truncated 3
                          | _ => broken 3
                          end
                 end
        end
      else ("invalid start byte", 1)
  end.

(** [str(err)] of the [UnicodeDecodeError] for the undecodable byte at
    [pos]: one byte is shown with its value, a longer range by its two
    ends. *)
Definition utf_8_error_message (line : list byte) (pos : nat) : string :=
  let (reason, covered) := utf_8_defect (skipn pos line) in
  match covered, nth_error line pos with
  | 1, Some b =>
      "'utf-8' codec can't decode byte 0x" ++ hex2 (ascii_of_byte b)
      ++ " in position " ++ str_nat pos ++ ": " ++ reason
  | _, _ =>
      "'utf-8' codec can't decode bytes in position " ++ str_nat pos ++ "-"
      ++ str_nat (pos + covered - 1) ++ ": " ++ reason
  end.

(* ===================================================================== *)
(** * The interpreter's thread list *)
(* ===================================================================== *)

(** What [repr] shows of a [threading.Thread]: its class, its name and
    the status text (started, daemon, identifier). *)
Record thread : Type := mkThread {
  thread_class : string;
  thread_name : string;
  thread_status : string
}.

(** [repr(t)] is [<Class(name, status)>]. *)
Definition repr_thread (t : thread) : string :=
  "<" ++ thread_class t ++ "(" ++ thread_name t ++ ", " ++ thread_status t ++ ")>".

(** [str(threading.enumerate())]: the [repr] of a list. *)
Definition str_threads (ts : list thread) : string :=
  "[" ++ join ", " (map repr_thread ts) ++ "]".

(** How many live threads carry the name [n]. *)
Definition named (n : string) (ts : list thread) : nat :=
  List.length (filter (fun t => String.eqb (thread_name t) n) ts).

(* ===================================================================== *)
(** * Exceptions, effects and the monad *)
(* ===================================================================== *)

(** The program looks at an exception in two ways only: it tests its
    class in an [except] clause and it reads [str(err)].  [ValueError msg]
    is an instance of [ValueError] itself; [OtherException cls msg] is an
    instance of another class that derives from [Exception], known by the
    name of the class.  An instance of a class that a library derives
    from a built-in class is, for these two ways, an instance of that
    built-in class. *)
Inductive exn : Type :=
| ValueError (msg : string)
| OtherException (cls msg : string)   (* any other subclass of [Exception] *)
| SystemExit.                          (* raised by [exit()] *)

(** The direct base of a class of Python's built-in exception hierarchy,
    for the classes whose base is not [Exception] itself.  A class the
    table does not list derives from [Exception] directly. *)
Definition builtin_base (cls : string) : option string :=
  let one_of (classes : list string) := existsb (String.eqb cls) classes in
  if one_of ["FloatingPointError"; "OverflowError"; "ZeroDivisionError"]
  then Some "ArithmeticError"
  else if one_of ["ModuleNotFoundError"] then Some "ImportError"
  else if one_of ["IndexError"; "KeyError"] then Some "LookupError"
  else if one_of ["UnboundLocalError"] then Some "NameError"
  else if one_of ["BlockingIOError"; "ChildProcessError"; "ConnectionError";
                  "FileExistsError"; "FileNotFoundError"; "InterruptedError";
                  "IsADirectoryError"; "NotADirectoryError"; "PermissionError";
                  "ProcessLookupError"; "TimeoutError"]
  then Some "OSError"
  else if one_of ["BrokenPipeError"; "ConnectionAbortedError";
                  "ConnectionRefusedError"; "ConnectionResetError"]
  then Some "ConnectionError"
  else if one_of ["NotImplementedError"; "RecursionError"] then Some "RuntimeError"
  else if one_of ["IndentationError"] then Some "SyntaxError"
  else if one_of ["TabError"] then Some "IndentationError"
  else if one_of ["UnicodeError"] then Some "ValueError"
  else if one_of ["UnicodeDecodeError"; "UnicodeEncodeError"; "UnicodeTranslateError"]
  then Some "UnicodeError"
  else if one_of ["BytesWarning"; "DeprecationWarning"; "EncodingWarning";
                  "FutureWarning"; "ImportWarning"; "PendingDeprecationWarning";
                  "ResourceWarning"; "RuntimeWarning"; "SyntaxWarning";
                  "UnicodeWarning"; "UserWarning"]
  then Some "Warning"
  else None.

(** [issubclass(cls, base)] for two classes that derive from [Exception]:
    [base] is [cls] or is reached from it through the bases.  No chain of
    the table is longer than three. *)
Fixpoint derives_within (depth : nat) (cls base : string) : bool :=
  String.eqb cls base
  || match depth, builtin_base cls with
     | S d, Some parent => derives_within d parent base
     | _, _ => false
     end.

Definition issubclass (cls base : string) : bool := derives_within 3 cls base.

(** [str(err)] and [f'{err}']. *)
Definition str_exn (e : exn) : string :=
  match e with
  | ValueError m => m
  | OtherException _ m => m
  | SystemExit => "None"
  end.

(** [except Exception] does not catch [SystemExit]. *)
Definition is_Exception (e : exn) : bool :=
  match e with SystemExit => false | _ => true end.

(** [except ValueError] catches the instances of [ValueError] and of the
    classes that derive from it. *)
Definition is_ValueError (e : exn) : bool :=
  match e with
  | ValueError _ => true
  | OtherException cls _ => issubclass cls "ValueError"
  | SystemExit => false
  end.

(** [except NameError] and [except KeyError]. *)
Definition is_NameError (e : exn) : bool :=
  match e with
  | OtherException cls _ => issubclass cls "NameError"
  | _ => false
  end.

Definition is_KeyError (e : exn) : bool :=
  match e with
  | OtherException cls _ => issubclass cls "KeyError"
  | _ => false
  end.

Inductive outcome (A : Type) : Type :=
| Ret (a : A)
| Raise (e : exn).
Arguments Ret {A} a.
Arguments Raise {A} e.

(** A logger is known by its name, as in Python's [logging] registry. *)
Definition logger : Type := string.

Inductive level : Type := DEBUG | INFO | ERROR.

(** What a thread of the program does to the outside, in the order it
    does it. *)
Inductive event : Type :=
| Log (lg : logger) (lvl : level) (msg : text)
| Print (line : string)
| Spawn (thread_name container_name : string) (container_logger : logger)
| Email (subject body : string)
| Makedirs (path : string).

Record state : Type := mkState {
  live : list thread;    (* what [threading.enumerate()] returns now *)
  trace : list event;    (* oldest first *)
  tb_lineno : nat        (* [sys.exc_info()[-1].tb_lineno] in a handler *)
}.

Definition M (A : Type) : Type := state -> outcome A * state.

Definition ret {A} (a : A) : M A := fun st => (Ret a, st).

Definition bind {A B} (m : M A) (k : A -> M B) : M B :=
  fun st =>
    match m st with
    | (Ret a, st') => k a st'
    | (Raise e, st') => (Raise e, st')
    end.

Definition raise {A} (e : exn) : M A := fun st => (Raise e, st).

(** A pure computation that may raise. *)
Definition lift {A} (r : outcome A) : M A := fun st => (r, st).

(** [try: m except <caught> as err: handler err]. *)
Definition try_except {A} (m : M A) (caught : exn -> bool) (handler : exn -> M A) : M A :=
  fun st =>
    match m st with
    | (Raise e, st') => if caught e then handler e st' else (Raise e, st')
    | r => r
    end.

(** The statement [m] stands on line [line] of the function being
    modelled: an exception that leaves it has that line in the traceback
    entry of this function. *)
Definition at_line {A} (line : nat) (m : M A) : M A :=
  fun st =>
    match m st with
    | (Raise e, st') => (Raise e, mkState (live st') (trace st') line)
    | r => r
    end.

Definition exc_lineno : M string :=
  fun st => (Ret (str_nat (tb_lineno st)), st).

Definition emit (ev : event) : M unit :=
  fun st => (Ret tt, mkState (live st) (trace st ++ [ev])%list (tb_lineno st)).

Definition threading_enumerate : M (list thread) :=
  fun st => (Ret (live st), st).

Declare Scope py_scope.
Delimit Scope py_scope with py.
Notation "x <- m ;; k" := (bind m (fun x => k))
  (at level 61, m at next level, right associativity) : py_scope.
Notation "m ;; k" := (bind m (fun _ => k))
  (at level 61, right associativity) : py_scope.
Local Open Scope py_scope.

(** [for x in xs: body x]. *)
Fixpoint for_each {A} (xs : list A) (body : A -> M unit) : M unit :=
  match xs with
  | [] => ret tt
  | x :: rest => body x ;; for_each rest body
  end.

(** [enumerate(xs)], counting from [i]. *)
Fixpoint enumerate_from {A} (i : nat) (xs : list A) : list (nat * A) :=
  match xs with
  | [] => []
  | x :: rest => (i, x) :: enumerate_from (S i) rest
  end.

(* ===================================================================== *)
(** * Configuration values *)
(* ===================================================================== *)

(** What the YAML loader returns. *)
#[local] Set Warnings "-register-all".
Inductive yaml : Type :=
| YNone
| YBool (b : bool)
| YInt (z : Z)
| YStr (s : string)
| YList (items : list yaml)
| YDict (items : list (string * yaml)).   (* in insertion order *)

Definition type_name (y : yaml) : string :=
  match y with
  | YNone => "NoneType"
  | YBool _ => "bool"
  | YInt _ => "int"
  | YStr _ => "str"
  | YList _ => "list"
  | YDict _ => "dict"
  end.

Fixpoint repr_yaml (y : yaml) : string :=
  match y with
  | YNone => "None"
  | YBool true => "True"
  | YBool false => "False"
  | YInt z => str_Z z
  | YStr s => repr_str s
  | YList items => "[" ++ join ", " (map repr_yaml items) ++ "]"
  | YDict items =>
      "{" ++ join ", " (map (fun kv => repr_str (fst kv) ++ ": " ++ repr_yaml (snd kv)) items)
      ++ "}"
  end.

(** [f'{y}']. *)
Definition str_yaml (y : yaml) : string :=
  match y with
  | YStr s => s
  | _ => repr_yaml y
  end.

(** [key in y] for a [str] key. *)
Definition py_in (key : string) (y : yaml) : outcome bool :=
  match y with
  | YDict items => Ret (existsb (fun kv => String.eqb (fst kv) key) items)
  | YList items =>
      Ret (existsb (fun v => match v with YStr s => String.eqb s key | _ => false end) items)
  | YStr s => Ret (contains key s)
  | _ => Raise (OtherException "TypeError"
                  ("argument of type '" ++ type_name y ++ "' is not iterable"))
  end.

Definition no_attribute (y : yaml) (attr : string) : exn :=
  OtherException "AttributeError"
    ("'" ++ type_name y ++ "' object has no attribute '" ++ attr ++ "'").

(** [y.get(key, default)]; [y.get(key)] is [dict_get y key YNone]. *)
Definition dict_get (y : yaml) (key : string) (default : yaml) : outcome yaml :=
  match y with
  | YDict items =>
      Ret (match find (fun kv => String.eqb (fst kv) key) items with
           | Some kv => snd kv
           | None => default
           end)
  | _ => Raise (no_attribute y "get")
  end.

(** [y.items()]. *)
Definition dict_items (y : yaml) : outcome (list (string * yaml)) :=
  match y with
  | YDict items => Ret items
  | _ => Raise (no_attribute y "items")
  end.

Record email_settings : Type := mkEmail {
  smtp : string;
  authentication_required : bool;
  use_tls : bool;
  username : string;
  password : string;
  from_email : string;
  to_email : string;
  send_message_encrypted : bool
}.

(** The dictionary [populate_startup_variables] returns. *)
Record startup_variables : Type := mkStartup {
  imported_yaml_read_config : yaml;
  central_log_path : string;
  email_alerts : bool;
  alert_program_errors : bool;
  root_logger : logger;
  docker_container_loggers : list (string * logger);
  startup_email_settings : email_settings
}.

(* ===================================================================== *)
(** * Collaborators *)
(* ===================================================================== *)

(** What the program calls and does not define: the [ictools] library,
    the operating system and the clock. *)
Record collaborators : Type := mkCollaborators {
  (** [start_function_thread(partial(get_docker_log, container_name,
      container_logger, root_logger), thread_name, False)] with the threads
      alive at the call: whether it returns, and the threads alive when
      the caller next looks. *)
  start_function_thread :
    string -> logger -> string -> list thread -> outcome unit * list thread;
  (** [subprocess.Popen(args, stdout=PIPE)]: the lines [readline] returns
      while [poll()] is still [None]. *)
  Popen : list string -> outcome (list (list byte));
  read_yaml_config : string -> outcome yaml;
  (** [create_logger(save_path, logger_name, log_name, max_bytes,
      file_log_level, console_log_level, backup_count, format_option,
      handler_option)]. *)
  create_logger :
    string -> string -> string -> Z -> string -> string -> Z -> yaml -> Z -> outcome logger;
  send_email : email_settings -> string -> string -> logger -> outcome unit;
  os_path_abspath : string -> string;
  os_path_exists : string -> bool;
  os_makedirs : string -> outcome unit;
  (** [datetime.now().strftime(...)] with the format of the program. *)
  datetime_now : string;
  (** The threads still alive after [time.sleep(3600)]. *)
  time_sleep : list thread -> list thread
}.

(* ===================================================================== *)
(** * The program *)
(* ===================================================================== *)

Inductive status : Type := Started | Failed.

(** One dictionary with the keys [Status] and [container_name]. *)
Record status_entry : Type := mkEntry {
  Status : status;
  container_name : string
}.

(** The module's [__name__] when it is run as a script. *)
Definition module_name : string := "__main__".

Section Program.

Variable E : collaborators.

(** ** The reader thread: [get_docker_log] *)

(** One turn of the [while] loop, line 61: the line is decoded, trimmed
    and handed to the container's logger. *)
Definition forward_line (container_logger : logger) (line : list byte) : M unit :=
  decoded <- lift (match utf_8_decode 0 line with
                   | inl t => Ret t
                   | inr pos => Raise (OtherException "UnicodeDecodeError"
                                         (utf_8_error_message line pos))
                   end) ;;
  emit (Log container_logger INFO (strip decoded)).

Definition get_docker_log (container_name : string)
    (container_logger root_logger : logger) : M unit :=
  let processing_args := ["docker"; "logs"; "-f"; container_name] in
  emit (Log root_logger DEBUG
          ("Starting to redirect the docker container logs for " ++ container_name)) ;;
  emit (Log root_logger DEBUG
          ("Processing agruments = " ++ repr_str_list processing_args)) ;;
  try_except
    (output <- at_line 55 (lift (Popen E processing_args)) ;;
     for_each output (fun line => at_line 61 (forward_line container_logger line)) ;;
     emit (Log root_logger DEBUG
             ("The docker container logs for " ++ container_name
              ++ " have stopped outputting. This can happen with the docker container stops running")))
    is_Exception
    (fun err =>
       line <- exc_lineno ;;
       raise (ValueError ("The sub-process failed to run. " ++ str_exn err
                          ++ ", Originating error on line " ++ line
                          ++ " in <" ++ module_name ++ ">"))).

(** ** The supervision pass: [create_docker_log_threads] *)

Definition call_start_function_thread
    (container_name : string) (container_logger : logger) (thread_name : string)
    : M unit :=
  fun st =>
    let (r, ts) :=
      start_function_thread E container_name container_logger thread_name (live st) in
    (r, mkState ts
          (trace st ++ [Spawn thread_name container_name container_logger])%list
          (tb_lineno st)).

(** The body of the [for] loop, lines 93 to 137, on the tracker built
    so far. *)
Definition supervise_container (root_logger : logger)
    (docker_container : string * logger)
    (thread_start_tracker : list (list status_entry))
    : M (list (list status_entry)) :=
  let container_name := fst docker_container in
  let container_logger := snd docker_container in
  let container_name := replace " " "_" container_name in
  let thread_name := container_name ++ "_thread" in
  emit (Log root_logger DEBUG
          ("The thread (" ++ thread_name ++ ") is being created for " ++ container_name)) ;;
  threads <- threading_enumerate ;;
  if negb (contains thread_name (str_threads threads)) then
    emit (Log root_logger INFO
            ("Starting the docker container log capture for " ++ container_name)) ;;
    try_except
      (at_line 113
         (call_start_function_thread container_name container_logger thread_name))
      is_Exception
      (fun err =>
         line <- exc_lineno ;;
         raise (ValueError (str_exn err ++ ", Error on line " ++ line
                            ++ " in <" ++ module_name ++ ">"))) ;;
    threads <- threading_enumerate ;;
    if contains thread_name (str_threads threads) then
      emit (Log root_logger INFO
              ("The docker container log capture has started for " ++ container_name
               ++ ". Thread name = " ++ thread_name)) ;;
      ret (thread_start_tracker ++ [[mkEntry Started container_name]])%list
    else
      emit (Log root_logger ERROR
              ("Failed to start " ++ thread_name ++ " for " ++ container_name
               ++ ". The program will continue, but additional troubleshooting will be required. The docker container may not be active.")) ;;
      ret (thread_start_tracker ++ [[mkEntry Failed container_name]])%list
  else
    emit (Log root_logger INFO
            ("The thread (" ++ thread_name ++ ") is still running for " ++ container_name
             ++ ". No action required")) ;;
    ret thread_start_tracker.

(** The [for] loop of line 89. *)
Fixpoint supervise_all (root_logger : logger)
    (docker_container_loggers : list (string * logger))
    (thread_start_tracker : list (list status_entry))
    : M (list (list status_entry)) :=
  match docker_container_loggers with
  | [] => ret thread_start_tracker
  | docker_container :: rest =>
      tracker <- supervise_container root_logger docker_container thread_start_tracker ;;
      supervise_all root_logger rest tracker
  end.

Definition create_docker_log_threads
    (docker_container_loggers : list (string * logger)) (root_logger : logger)
    : M (list (list status_entry)) :=
  emit (Log root_logger DEBUG "Creating individual threads for each docker container") ;;
  supervise_all root_logger docker_container_loggers [].

(** ** Configuration: [populate_startup_variables] *)

(** Modelled from the spec: [yaml_value_validation(key, value, type)] of
    the [ictools] library, whose source is not in this repository.  The
    specification says of the configuration that it is type-validated per
    field and that a wrong type is a fatal configuration error: the call
    raises [ValueError] unless the value is an instance of the type.  The
    model hands the value back at that type; a [bool] is an instance of
    [int] in Python.  The wording of the message is the model's. *)
Definition validation_error {A} (key : string) (v : yaml) (required : string) : M A :=
  raise (ValueError ("Incorrect '" ++ key ++ "' YAML value. " ++ required
                     ++ " is required, but " ++ type_name v ++ " was found")).

Definition yaml_value_validation_str (key : string) (v : yaml) : M string :=
  match v with
  | YStr s => ret s
  | _ => validation_error key v "str"
  end.

Definition yaml_value_validation_bool (key : string) (v : yaml) : M bool :=
  match v with
  | YBool b => ret b
  | _ => validation_error key v "bool"
  end.

Definition yaml_value_validation_int (key : string) (v : yaml) : M Z :=
  match v with
  | YInt z => ret z
  | YBool b => ret (if b then 1%Z else 0%Z)
  | _ => validation_error key v "int"
  end.

(** [cfg.get(section, {}).get(key)]. *)
Definition get_setting (cfg : yaml) (section key : string) : M yaml :=
  inner <- lift (dict_get cfg section (YDict [])) ;;
  lift (dict_get inner key YNone).

(** One entry of the [for] loop of line 165. *)
Definition create_docker_container_logger
    (central_log_path : string) (max_log_file_size : Z)
    (entry : string * yaml) (docker_container_loggers : list (string * logger))
    : M (list (string * logger)) :=
  let key := fst entry in
  let docker_container := snd entry in
  names <- try_except
             (at_line 170
                (container_name <- lift (dict_get docker_container "container_name" YNone) ;;
                 log_name <- lift (dict_get docker_container "log_name" YNone) ;;
                 ret (container_name, log_name)))
             is_Exception
             (fun _ =>
                line <- exc_lineno ;;
                raise (ValueError
                  ("The YAML software entry section is missing the required keys. Please verify you have set all required keys and try again, Originating error on line "
                   ++ line ++ " in <" ++ module_name ++ ">"))) ;;
  container_name <-
    yaml_value_validation_str (key ++ " nested key 'container_name'") (fst names) ;;
  log_name <-
    yaml_value_validation_str (key ++ " nested key 'log_name'") (snd names) ;;
  try_except
    (at_line 202
       (container_logger <-
          lift (create_logger E central_log_path container_name log_name
                  max_log_file_size "INFO" "INFO" 4 (YStr "%(message)s") 2) ;;
        ret (docker_container_loggers ++ [(container_name, container_logger)])%list))
    is_Exception
    (fun err =>
       line <- exc_lineno ;;
       raise (ValueError
         ("The logger creation for the docker container (" ++ container_name
          ++ ") failed to create. " ++ str_exn err ++ ", Originating error on line "
          ++ line ++ " in <" ++ module_name ++ ">"))).

Fixpoint create_docker_container_loggers_from
    (central_log_path : string) (max_log_file_size : Z)
    (entries : list (string * yaml)) (docker_container_loggers : list (string * logger))
    : M (list (string * logger)) :=
  match entries with
  | [] => ret docker_container_loggers
  | entry :: rest =>
      loggers <- create_docker_container_logger central_log_path max_log_file_size
                   entry docker_container_loggers ;;
      create_docker_container_loggers_from central_log_path max_log_file_size rest loggers
  end.

Definition create_docker_container_loggers
    (config_yaml_read : yaml) (central_log_path : string) (max_log_file_size : Z)
    : M (list (string * logger)) :=
  section <- lift (dict_get config_yaml_read "docker_container" YNone) ;;
  entries <- lift (dict_items section) ;;
  create_docker_container_loggers_from central_log_path max_log_file_size entries [].

(** One of the four tests of lines 244 to 251; [shown] is the key named
    in the message. *)
Definition require_root_key (cfg : yaml) (key shown : string) (line : nat) : M unit :=
  present <- lift (py_in key cfg) ;;
  if negb present then
    raise (ValueError ("The '" ++ shown
                       ++ "' key is missing from the YAML file, Originating error on line "
                       ++ str_nat line ++ " in <" ++ module_name ++ ">"))
  else ret tt.

Definition call_os_makedirs (path : string) : M unit :=
  emit (Makedirs path) ;; lift (os_makedirs E path).

(** The three [except] clauses of lines 407 to 414. *)
Definition startup_handler {A} (err : exn) : M A :=
  let wrapped (prefix : string) (line : string) :=
      ValueError (prefix ++ str_exn err ++ ", Error on line" ++ line
                  ++ " in <" ++ module_name ++ ">") in
  if is_NameError err then raise (wrapped "NameError: " "408")
  else if is_KeyError err then raise (wrapped "KeyError: " "411")
  else raise (wrapped EmptyString "414").

(** The [try] block of lines 236 to 405. *)
Definition startup_body : M startup_variables :=
    (returned_yaml_read_config <- lift (read_yaml_config E "docker_log_redirect.yaml") ;;
     require_root_key returned_yaml_read_config "general" "general" 245 ;;
     require_root_key returned_yaml_read_config "docker_container" "software" 247 ;;
     require_root_key returned_yaml_read_config "email" "email" 249 ;;
     require_root_key returned_yaml_read_config "logging" "logging" 251 ;;
     let cfg := returned_yaml_read_config in
     v <- get_setting cfg "general" "central_log_path" ;;
     central_log_path <- yaml_value_validation_str "central_log_path" v ;;
     let central_log_path := os_path_abspath E central_log_path in
     (if negb (os_path_exists E central_log_path)
      then call_os_makedirs central_log_path else ret tt) ;;
     v <- get_setting cfg "general" "email_alerts" ;;
     email_alerts <- yaml_value_validation_bool "email_alerts" v ;;
     v <- get_setting cfg "general" "alert_program_errors" ;;
     alert_program_errors <- yaml_value_validation_bool "alert_program_errors" v ;;
     v <- get_setting cfg "logging" "max_log_file_size" ;;
     max_log_file_size <- yaml_value_validation_int "max_log_file_size" v ;;
     file_log_level <- get_setting cfg "logging" "file_log_level" ;;
     console_log_level <- get_setting cfg "logging" "console_log_level" ;;
     logging_format_option <- get_setting cfg "logging" "logging_format_option" ;;
     logging_handler_option <- get_setting cfg "logging" "logging_handler_option" ;;
     logging_backup_log_count <- get_setting cfg "logging" "logging_backup_log_count" ;;
     file_log_level <- yaml_value_validation_str "file_log_level" file_log_level ;;
     console_log_level <- yaml_value_validation_str "console_log_level" console_log_level ;;
     logging_handler_option <-
       yaml_value_validation_int "logging_handler_option" logging_handler_option ;;
     logging_backup_log_count <-
       yaml_value_validation_int "logging_backup_log_count" logging_backup_log_count ;;
     logging_format_option <-
       (if contains "%" (str_yaml logging_format_option) then
          match logging_format_option with
          | YStr s => ret (YStr (replace "'" EmptyString s))
          | other => raise (no_attribute other "replace")
          end
        else
          z <- yaml_value_validation_int "logging_format_option" logging_format_option ;;
          ret (YInt z)) ;;
     root_logger <-
       lift (create_logger E central_log_path module_name "docker_log_redirect.log"
               max_log_file_size file_log_level console_log_level
               logging_backup_log_count logging_format_option logging_handler_option) ;;
     docker_container_loggers <-
       create_docker_container_loggers cfg central_log_path max_log_file_size ;;
     smtp <- get_setting cfg "email" "smtp" ;;
     authentication_required <- get_setting cfg "email" "authentication_required" ;;
     use_tls <- get_setting cfg "email" "use_tls" ;;
     username <- get_setting cfg "email" "username" ;;
     password <- get_setting cfg "email" "password" ;;
     from_email <- get_setting cfg "email" "from_email" ;;
     to_email <- get_setting cfg "email" "to_email" ;;
     smtp <- yaml_value_validation_str "smtp" smtp ;;
     authentication_required <-
       yaml_value_validation_bool "authentication_required" authentication_required ;;
     use_tls <- yaml_value_validation_bool "use_tls" use_tls ;;
     username <- yaml_value_validation_str "username" username ;;
     password <- yaml_value_validation_str "password" password ;;
     from_email <- yaml_value_validation_str "from_email" from_email ;;
     to_email <- yaml_value_validation_str "to_email" to_email ;;
     ret (mkStartup cfg central_log_path email_alerts alert_program_errors root_logger
            docker_container_loggers
            (mkEmail smtp authentication_required use_tls username password
               from_email to_email false))).

Definition populate_startup_variables : M startup_variables :=
  try_except startup_body is_Exception startup_handler.

(** ** One pass and the loop around it: [main] *)

Definition str_status (s : status) : string :=
  match s with Started => "Started" | Failed => "Failed" end.

Definition call_send_email (settings : email_settings) (subject body : string)
    (root_logger : logger) : M unit :=
  emit (Email subject body) ;; lift (send_email E settings subject body root_logger).

(** The handler of lines 469 to 504. *)
Definition main_handler (root_logger : logger) (email_alerts alert_program_errors : bool)
    (settings : email_settings) (err : exn) : M unit :=
  line <- exc_lineno ;;
  emit (Print (datetime_now E ++ "|Error|" ++ str_exn err ++ ", Error on line " ++ line
               ++ " in <" ++ module_name ++ ">")) ;;
  emit (Print (datetime_now E ++ "|Error|" ++ str_exn err)) ;;
  emit (Print (datetime_now E
               ++ "|Info|See log for more details. You may need to enable debugging for more information.")) ;;
  emit (Log root_logger ERROR (str_exn err)) ;;
  (if alert_program_errors && email_alerts then
     emit (Log root_logger ERROR "Sending email notification") ;;
     try_except
       (call_send_email settings "Docker Log Redirect Program Issue Occured"
          (datetime_now E ++ "|Error|Exception Thrown|" ++ str_exn err) root_logger)
       is_Exception
       (fun err => emit (Log root_logger ERROR (str_exn err)))
   else if negb alert_program_errors then
     emit (Log root_logger DEBUG "The user chooses not to send program errors to email")
   else
     emit (Log root_logger ERROR
             "The user did not choose an option on sending program errors to email. Continuing to exit")) ;;
  emit (Log root_logger ERROR "Exiting because of the exception error....") ;;
  raise SystemExit.

Definition main : M unit :=
  startup_variables <- populate_startup_variables ;;
  let email_alerts := email_alerts startup_variables in
  let alert_program_errors := alert_program_errors startup_variables in
  let root_logger := root_logger startup_variables in
  let docker_container_loggers := docker_container_loggers startup_variables in
  let email_settings := startup_email_settings startup_variables in
  emit (Log root_logger INFO
          "######################################################################") ;;
  emit (Log root_logger INFO
          "                   Docker Log Redirect - New Loop                     ") ;;
  emit (Log root_logger INFO
          "######################################################################") ;;
  try_except
    (thread_status <-
       at_line 440 (create_docker_log_threads docker_container_loggers root_logger) ;;
     let total_thread_status_entries := List.length thread_status in
     for_each thread_status (fun thread_status_of_dictionary =>
       for_each (enumerate_from 0 thread_status_of_dictionary) (fun index_value =>
         let index := fst index_value in
         let status := str_status (Status (snd index_value)) in
         let container_name := container_name (snd index_value) in
         if email_alerts then
           emit (Log root_logger INFO
                   ("Sending email. Entry " ++ str_nat (index + 1) ++ " of "
                    ++ str_nat total_thread_status_entries)) ;;
           at_line 463
             (call_send_email email_settings
                ("Docker Log Redirect Event for " ++ container_name
                 ++ ". Status = " ++ status)
                ("A docker redirect event has occured. Status of the docker log redirect = "
                 ++ status)
                root_logger)
         else
           emit (Log root_logger INFO
                   "Email alerting is disabled. The found log event is not be sent"))))
    is_ValueError
    (main_handler root_logger email_alerts alert_program_errors email_settings) ;;
  emit (Log root_logger INFO
          "The main program will sleep for 1 hour and validate the docker log redirect threads are still running.").

Definition call_time_sleep : M unit :=
  fun st => (Ret tt, mkState (time_sleep E (live st)) (trace st) (tb_lineno st)).

(** The first [passes] turns of the [while True] loop of line 525. *)
Fixpoint main_loop (passes : nat) : M unit :=
  match passes with
  | O => ret tt
  | S n => main ;; call_time_sleep ;; main_loop n
  end.

End Program.

(* ===================================================================== *)
(** * Concrete collaborators, used to run the program on examples *)
(* ===================================================================== *)

(** The interpreter's main thread and a reader thread as [repr] shows
    them. *)
Definition main_thread : thread := mkThread "_MainThread" "MainThread" "started 140213".

Definition watcher (name : string) : thread := mkThread "Thread" name "started daemon 140214".

(** A start state: only the main thread is alive, nothing has happened. *)
Definition initial_state : state := mkState [main_thread] [] 0.

(** A complete configuration with the given containers and alert flags. *)
Definition sample_config (containers : list (string * string)) (alerts errors : bool) : yaml :=
  YDict [
    ("general", YDict [("central_log_path", YStr "/var/log/docker");
                       ("email_alerts", YBool alerts);
                       ("alert_program_errors", YBool errors)]);
    ("docker_container",
       YDict (map (fun c => (fst c, YDict [("container_name", YStr (fst c));
                                             ("log_name", YStr (snd c))])) containers));
    ("email", YDict [("smtp", YStr "smtp.example.org");
                     ("authentication_required", YBool false);
                     ("use_tls", YBool false);
                     ("username", YStr "user");
                     ("password", YStr "secret");
                     ("from_email", YStr "from@example.org");
                     ("to_email", YStr "to@example.org")]);
    ("logging", YDict [("max_log_file_size", YInt 1000000);
                       ("file_log_level", YStr "INFO");
                       ("console_log_level", YStr "INFO");
                       ("logging_format_option", YInt 1);
                       ("logging_handler_option", YInt 2);
                       ("logging_backup_log_count", YInt 4)])
  ].

(** Collaborators under which everything works: every thread starts and
    stays alive, [failing] names the thread names whose start raises, the
    configuration is [cfg] and the log stream delivers [stream]. *)
Definition collaborators_with (failing : list string) (cfg : outcome yaml)
    (stream : list (list byte)) : collaborators := {|
  start_function_thread := fun _ _ thread_name ts =>
    if existsb (String.eqb thread_name) failing
    then (Raise (OtherException "RuntimeError" "can't start new thread"), ts)
    else (Ret tt, (ts ++ [watcher thread_name])%list);
  Popen := fun _ => Ret stream;
  read_yaml_config := fun _ => cfg;
  create_logger := fun _ logger_name _ _ _ _ _ _ _ => Ret logger_name;
  send_email := fun _ _ _ _ => Ret tt;
  os_path_abspath := fun p => p;
  os_path_exists := fun _ => true;
  os_makedirs := fun _ => Ret tt;
  datetime_now := "2021-06-01 12:00:00";
  time_sleep := fun ts => ts
|}.

Definition all_succeed : collaborators :=
  collaborators_with [] (Ret (sample_config [("web", "web.log")] true true)) [].

(** The thread names for which [start_function_thread] was called. *)
Fixpoint spawned (tr : list event) : list string :=
  match tr with
  | [] => []
  | Spawn thread_name _ _ :: rest => thread_name :: spawned rest
  | _ :: rest => spawned rest
  end.

(** The lines handed to the logger [lg]. *)
Fixpoint logged (lg : logger) (tr : list event) : list text :=
  match tr with
  | [] => []
  | Log lg' _ msg :: rest =>
      if String.eqb lg' lg then msg :: logged lg rest else logged lg rest
  | _ :: rest => logged lg rest
  end.

(** The subjects of the messages handed to [send_email]. *)
Fixpoint emailed (tr : list event) : list string :=
  match tr with
  | [] => []
  | Email subject _ :: rest => subject :: emailed rest
  | _ :: rest => emailed rest
  end.

(** The start of the watcher of [db] raises; every other start works. *)
Definition db_cannot_start : collaborators :=
  collaborators_with ["db_thread"]
    (Ret (sample_config [("web", "web.log"); ("db", "db.log"); ("cache", "cache.log")]
            true true)) [].

(** The start of the watcher of [db] returns, but its thread has ended
    by the time the pass looks (the container is not running); every
    other start works. *)
Definition db_ends_at_once : collaborators := {|
  start_function_thread := fun _ _ thread_name ts =>
    if String.eqb thread_name "db_thread" then (Ret tt, ts)
    else (Ret tt, (ts ++ [watcher thread_name])%list);
  Popen := Popen all_succeed;
  read_yaml_config := read_yaml_config db_cannot_start;
  create_logger := create_logger all_succeed;
  send_email := send_email all_succeed;
  os_path_abspath := os_path_abspath all_succeed;
  os_path_exists := os_path_exists all_succeed;
  os_makedirs := os_makedirs all_succeed;
  datetime_now := datetime_now all_succeed;
  time_sleep := time_sleep all_succeed
|}.

(** The watcher of [myweb] is alive, that of [web] is not. *)
Definition myweb_is_watched : state :=
  mkState [main_thread; watcher "myweb_thread"] [] 0.

(** A log stream whose second line is not UTF-8. *)
Definition garbled_stream : collaborators :=
  collaborators_with [] (Ret (sample_config [("web", "web.log")] true true))
    [[x6f; x6b; x0a]; [xff; xfe; x0a]; [x6c; x61; x74; x65; x72; x0a]].

(** Two spaces, [hi], a space and a newline. *)
Definition indented_line : list byte := [x20; x20; x68; x69; x20; x0a].

(** A configuration that has no [email] section. *)
Definition config_without_email : yaml :=
  YDict [
    ("general", YDict [("central_log_path", YStr "/var/log/docker");
                       ("email_alerts", YBool true);
                       ("alert_program_errors", YBool true)]);
    ("docker_container",
       YDict [("web", YDict [("container_name", YStr "web"); ("log_name", YStr "web.log")])]);
    ("logging", YDict [("max_log_file_size", YInt 1000000);
                       ("file_log_level", YStr "INFO");
                       ("console_log_level", YStr "INFO");
                       ("logging_format_option", YInt 1);
                       ("logging_handler_option", YInt 2);
                       ("logging_backup_log_count", YInt 4)])
  ].

Definition no_email_section : collaborators :=
  collaborators_with [] (Ret config_without_email) [].


(* ===================================================================== *)
(** * Vocabulary of the statements *)
(* ===================================================================== *)

(** The state once the events [evs] have been added to the trace. *)
Definition after (st : state) (evs : list event) : state :=
  mkState (live st) (trace st ++ evs) (tb_lineno st).

(** The watcher name derived from a configured container name. *)
Definition watcher_name (container_name : string) : string :=
  replace " " "_" container_name ++ "_thread".

(** The registry's answer for a container: its watcher name is found in
    the rendering of the live threads. *)
Definition reported_active (container_name : string) (ts : list thread) : bool :=
  contains (watcher_name container_name) (str_threads ts).

(** The log lines of one turn of the pass, for the normalized name [c]. *)
Definition being_created (root_logger : logger) (c : string) : event :=
  Log root_logger DEBUG
    ("The thread (" ++ (c ++ "_thread") ++ ") is being created for " ++ c).

Definition starting (root_logger : logger) (c : string) : event :=
  Log root_logger INFO ("Starting the docker container log capture for " ++ c).

Definition has_started (root_logger : logger) (c : string) : event :=
  Log root_logger INFO
    ("The docker container log capture has started for " ++ c
     ++ ". Thread name = " ++ (c ++ "_thread")).

Definition failed_to_start (root_logger : logger) (c : string) : event :=
  Log root_logger ERROR
    ("Failed to start " ++ (c ++ "_thread") ++ " for " ++ c
     ++ ". The program will continue, but additional troubleshooting will be required. The docker container may not be active.").

Definition still_running (root_logger : logger) (c : string) : event :=
  Log root_logger INFO
    ("The thread (" ++ (c ++ "_thread") ++ ") is still running for " ++ c
     ++ ". No action required").

(** What a pass logs for containers that are all skipped. *)
Definition skip_events (root_logger : logger) (containers : list (string * logger))
    : list event :=
  flat_map (fun d => [being_created root_logger (replace " " "_" (fst d));
                      still_running root_logger (replace " " "_" (fst d))]) containers.

(** Replacing the space by the underscore, character by character. *)
Fixpoint underscored (s : string) : string :=
  match s with
  | EmptyString => EmptyString
  | String a s' => String (if Ascii.eqb a " " then "_"%char else a) (underscored s')
  end.

(** Every container of the list is inactive when its turn comes, its
    start call returns and the registry then reports it active; [ts] are
    the threads alive at the start. *)
Fixpoint every_spawn_succeeds (E : collaborators) (containers : list (string * logger))
    (ts : list thread) : bool :=
  match containers with
  | [] => true
  | (name, lg) :: rest =>
      let c := replace " " "_" name in
      match start_function_thread E c lg (c ++ "_thread") ts with
      | (Ret _, ts') =>
          negb (contains (c ++ "_thread") (str_threads ts))
          && contains (c ++ "_thread") (str_threads ts')
          && every_spawn_succeeds E rest ts'
      | (Raise _, _) => false
      end
  end.

(** At most one live thread carries the watcher name of any container. *)
Definition one_reader_per_container (ts : list thread) : Prop :=
  forall container_name : string, named (watcher_name container_name) ts <= 1.

(** [start_function_thread] starts at most one thread, under the name it
    is given; other threads can only have ended in the meantime. *)
Definition starts_at_most_one (E : collaborators) : Prop :=
  forall c lg thread_name ts n,
    named n (snd (start_function_thread E c lg thread_name ts))
    <= named n ts + (if String.eqb n thread_name then 1 else 0).


(** While the main thread sleeps, threads can only end. *)
Definition sleep_only_ends (E : collaborators) : Prop :=
  forall ts n, named n (time_sleep E ts) <= named n ts.

(** The three lines [main] writes at the start of a pass. *)
Definition banner (root_logger : logger) : list event :=
  [Log root_logger INFO
     "######################################################################";
   Log root_logger INFO
     "                   Docker Log Redirect - New Loop                     ";
   Log root_logger INFO
     "######################################################################"].


(** [m] keeps the property [P] of the live threads, whether it returns
    or raises. *)
Definition preserves (P : list thread -> Prop) {A} (m : M A) : Prop :=
  forall st, P (live st) -> P (live (snd (m st))).

(** The byte of value [n], for [n] below 256. *)
Definition byte_of_N (n : N) : byte :=
  match Byte.of_N n with
  | Some b => b
  | None => x00
  end.

(** UTF-8: the bytes of one code point and of a text. *)
Definition utf_8_encode_char (c : N) : list byte :=
  if (c <? 128)%N then [byte_of_N c]
  else if (c <? 2048)%N then
    [byte_of_N (192 + c / 64); byte_of_N (128 + c mod 64)]
  else if (c <? 65536)%N then
    [byte_of_N (224 + c / 4096); byte_of_N (128 + (c / 64) mod 64);
     byte_of_N (128 + c mod 64)]
  else
    [byte_of_N (240 + c / 262144); byte_of_N (128 + (c / 4096) mod 64);
     byte_of_N (128 + (c / 64) mod 64); byte_of_N (128 + c mod 64)].

Definition utf_8_encode (t : text) : list byte := flat_map utf_8_encode_char t.

(** A Unicode scalar value: a code point up to U+10FFFF that is not a
    surrogate. *)
Definition is_scalar_value (c : N) : bool :=
  ((c <? 55296) || ((57344 <=? c) && (c <? 1114112)))%N.

(** The decoder's result once the code point [c] has been read. *)
Definition push (c : N) (r : text + nat) : text + nat :=
  match r with
  | inl t => inl (c :: t)
  | inr p => inr p
  end.

(* ===================================================================== *)
(** * Vocabulary of the further statements *)
(* ===================================================================== *)

(** The two lines the reader writes to the root logger before it opens
    the stream. *)
Definition reader_starts (root_logger : logger) (container_name : string) : list event :=
  [Log root_logger DEBUG
     ("Starting to redirect the docker container logs for " ++ container_name);
   Log root_logger DEBUG
     ("Processing agruments = "
      ++ repr_str_list ["docker"; "logs"; "-f"; container_name])].

(** A text that neither begins nor ends with white space; the empty text
    is one. *)
Definition no_space_at_ends (t : text) : bool :=
  match t, rev t with
  | first :: _, last :: _ => negb (isspace first) && negb (isspace last)
  | _, _ => true
  end.

(** The [docker] command cannot be run. *)
Definition docker_is_missing : collaborators := {|
  start_function_thread := start_function_thread all_succeed;
  Popen := fun _ =>
    Raise (OtherException "FileNotFoundError"
             "[Errno 2] No such file or directory: 'docker'");
  read_yaml_config := read_yaml_config all_succeed;
  create_logger := create_logger all_succeed;
  send_email := send_email all_succeed;
  os_path_abspath := os_path_abspath all_succeed;
  os_path_exists := os_path_exists all_succeed;
  os_makedirs := os_makedirs all_succeed;
  datetime_now := datetime_now all_succeed;
  time_sleep := time_sleep all_succeed
|}.

(** The start call of a turn, for the container [name] with the threads
    [ts] alive: what it returns and the threads alive afterwards. *)
Definition start_call (E : collaborators) (name : string) (lg : logger) (ts : list thread)
    : outcome unit * list thread :=
  start_function_thread E (replace " " "_" name) lg (replace " " "_" name ++ "_thread") ts.

(** The threads alive after the turns of [containers], when [ts] are
    alive before the first: a turn changes them through its start call
    only, which it makes when the registry does not report the container
    active. *)
Fixpoint threads_after (E : collaborators) (containers : list (string * logger))
    (ts : list thread) : list thread :=
  match containers with
  | [] => ts
  | (name, lg) :: rest =>
      if reported_active name ts then threads_after E rest ts
      else threads_after E rest (snd (start_call E name lg ts))
  end.

(** What the two registry checks of a turn find, container by container,
    when [ts] are the threads alive before the first turn: [None] where
    the check of line 105 reports the container active; otherwise
    [Started] or [Failed], as the check of line 124 reports it active or
    not after the start call. *)
Fixpoint findings (E : collaborators) (containers : list (string * logger))
    (ts : list thread) : list (option status) :=
  match containers with
  | [] => []
  | (name, lg) :: rest =>
      if reported_active name ts then None :: findings E rest ts
      else
        let ts' := snd (start_call E name lg ts) in
        Some (if reported_active name ts' then Started else Failed) :: findings E rest ts'
  end.

(** What a pass reports when [choices] tells, container by container,
    whether a start was tried and how it ended ([None]: the container was
    found active). *)
Fixpoint reported (containers : list (string * logger)) (choices : list (option status))
    : list (list status_entry) :=
  match containers, choices with
  | d :: ds, Some s :: cs => [mkEntry s (replace " " "_" (fst d))] :: reported ds cs
  | _ :: ds, None :: cs => reported ds cs
  | _, _ => []
  end.

(** The thread names that belong to the entries of a result list. *)
Definition thread_names_of (results : list (list status_entry)) : list string :=
  flat_map (map (fun entry => container_name entry ++ "_thread")) results.



(** A container entry of the configuration that has a name and a log
    file name, both strings, and for which the logger [snd pair] can be
    created under the name [fst pair]. *)
Definition well_formed_entry (E : collaborators) (path : string) (size : Z)
    (entry : string * yaml) (pair : string * logger) : Prop :=
  exists log_name,
    dict_get (snd entry) "container_name" YNone = Ret (YStr (fst pair))
    /\ dict_get (snd entry) "log_name" YNone = Ret (YStr log_name)
    /\ create_logger E path (fst pair) log_name size "INFO" "INFO" 4
         (YStr "%(message)s") 2
       = Ret (snd pair).

(** The logger of [db] cannot be created. *)
Definition db_log_is_locked : collaborators := {|
  start_function_thread := start_function_thread all_succeed;
  Popen := Popen all_succeed;
  read_yaml_config := read_yaml_config db_cannot_start;
  create_logger := fun _ logger_name _ _ _ _ _ _ _ =>
    if String.eqb logger_name "db"
    then Raise (OtherException "PermissionError" "[Errno 13] Permission denied")
    else Ret logger_name;
  send_email := send_email all_succeed;
  os_path_abspath := os_path_abspath all_succeed;
  os_path_exists := os_path_exists all_succeed;
  os_makedirs := os_makedirs all_succeed;
  datetime_now := datetime_now all_succeed;
  time_sleep := time_sleep all_succeed
|}.

(** A section of containers whose second entry is a string, not a
    mapping. *)
Definition second_entry_is_a_string : yaml :=
  YDict [("docker_container",
          YDict [("first", YDict [("container_name", YStr "web");
                                  ("log_name", YStr "web.log")]);
                 ("second", YStr "db");
                 ("third", YDict [("container_name", YStr "cache");
                                  ("log_name", YStr "cache.log")])])].

(** Everything [m] adds to the trace satisfies [Q]. *)
Definition only_emits (Q : event -> Prop) {A} (m : M A) : Prop :=
  forall st, exists evs, trace (snd (m st)) = (trace st ++ evs)%list /\ Forall Q evs.

(** The creation of a directory that does not exist. *)
Definition creates_missing_directory (E : collaborators) (ev : event) : Prop :=
  exists path, ev = Makedirs path /\ os_path_exists E path = false.

(** The message of the [ValueError] that [populate_startup_variables]
    raises for the error [cause] of its [try] block: the clause that
    catches it, of lines 407, 410 and 413, gives the prefix and the line. *)
Definition startup_message (cause : exn) : string :=
  let worded (prefix line : string) :=
      prefix ++ str_exn cause ++ ", Error on line" ++ line ++ " in <__main__>" in
  if is_NameError cause then worded "NameError: " "408"
  else if is_KeyError cause then worded "KeyError: " "411"
  else worded EmptyString "414".

(** [read_yaml_config] raises an [UnboundLocalError], a class that
    derives from [NameError]. *)
Definition reader_with_unbound_local : collaborators := {|
  start_function_thread := start_function_thread all_succeed;
  Popen := Popen all_succeed;
  read_yaml_config := fun _ =>
    Raise (OtherException "UnboundLocalError"
             "cannot access local variable 'config' where it is not associated with a value");
  create_logger := create_logger all_succeed;
  send_email := send_email all_succeed;
  os_path_abspath := os_path_abspath all_succeed;
  os_path_exists := os_path_exists all_succeed;
  os_makedirs := os_makedirs all_succeed;
  datetime_now := datetime_now all_succeed;
  time_sleep := time_sleep all_succeed
|}.

(** What [main] sends and logs for one entry of the result list. *)
Definition result_subject (entry : status_entry) : string :=
  "Docker Log Redirect Event for " ++ container_name entry
  ++ ". Status = " ++ str_status (Status entry).

Definition result_body (entry : status_entry) : string :=
  "A docker redirect event has occured. Status of the docker log redirect = "
  ++ str_status (Status entry).

Definition result_notes (root_logger : logger) (alerts : bool) (total : nat)
    (entry : status_entry) : list event :=
  if alerts
  then [Log root_logger INFO ("Sending email. Entry 1 of " ++ str_nat total);
        Email (result_subject entry) (result_body entry)]
  else [Log root_logger INFO
          "Email alerting is disabled. The found log event is not be sent"].

(** The last line of a pass that went well. *)
Definition goes_to_sleep (root_logger : logger) : event :=
  Log root_logger INFO
    "The main program will sleep for 1 hour and validate the docker log redirect threads are still running.".

(** What the handler of [main] prints and logs of an error that passed
    through line [line] of [main]. *)
Definition error_report_at (E : collaborators) (root_logger : logger) (msg : string)
    (line : nat) : list event :=
  [Print (datetime_now E ++ "|Error|" ++ msg ++ ", Error on line " ++ str_nat line
          ++ " in <" ++ module_name ++ ">");
   Print (datetime_now E ++ "|Error|" ++ msg);
   Print (datetime_now E
          ++ "|Info|See log for more details. You may need to enable debugging for more information.");
   Log root_logger ERROR msg].

(** The mail server cannot be reached: [send_email] raises an error that
    is no [ValueError]. *)
Definition mail_server_is_down : collaborators := {|
  start_function_thread := start_function_thread all_succeed;
  Popen := Popen all_succeed;
  read_yaml_config := read_yaml_config all_succeed;
  create_logger := create_logger all_succeed;
  send_email := fun _ _ _ _ =>
    Raise (OtherException "ConnectionRefusedError" "[Errno 111] Connection refused");
  os_path_abspath := os_path_abspath all_succeed;
  os_path_exists := os_path_exists all_succeed;
  os_makedirs := os_makedirs all_succeed;
  datetime_now := datetime_now all_succeed;
  time_sleep := time_sleep all_succeed
|}.

(** [send_email] raises a [UnicodeEncodeError], a class that derives from
    [ValueError]. *)
Definition mail_cannot_be_encoded : collaborators := {|
  start_function_thread := start_function_thread all_succeed;
  Popen := Popen all_succeed;
  read_yaml_config := read_yaml_config all_succeed;
  create_logger := create_logger all_succeed;
  send_email := fun _ _ _ _ =>
    Raise (OtherException "UnicodeEncodeError"
             "'ascii' codec can't encode character '\xe9' in position 12: ordinal not in range(128)");
  os_path_abspath := os_path_abspath all_succeed;
  os_path_exists := os_path_exists all_succeed;
  os_makedirs := os_makedirs all_succeed;
  datetime_now := datetime_now all_succeed;
  time_sleep := time_sleep all_succeed
|}.

(** Two container names that differ at most in that one has a space where
    the other has a space or an underscore. *)
Definition space_or_underscore (c : ascii) : bool :=
  Ascii.eqb c " " || Ascii.eqb c "_".

Fixpoint alike (a b : string) : bool :=
  match a, b with
  | EmptyString, EmptyString => true
  | String x a', String y b' =>
      (Ascii.eqb x y || (space_or_underscore x && space_or_underscore y)) && alike a' b'
  | _, _ => false
  end.

(** [m], when it returns, has left the state as it was. *)
Definition returns_quietly {A} (m : M A) : Prop :=
  forall st a st', m st = (Ret a, st') -> st' = st.

(** The log directory does not exist yet. *)
Definition log_directory_is_missing : collaborators := {|
  start_function_thread := start_function_thread all_succeed;
  Popen := Popen all_succeed;
  read_yaml_config := read_yaml_config all_succeed;
  create_logger := create_logger all_succeed;
  send_email := send_email all_succeed;
  os_path_abspath := os_path_abspath all_succeed;
  os_path_exists := fun _ => false;
  os_makedirs := os_makedirs all_succeed;
  datetime_now := datetime_now all_succeed;
  time_sleep := time_sleep all_succeed
|}.

(* ===================================================================== *)
(** * Strings: occurrence and replacement *)
(* ===================================================================== *)

Lemma append_assoc (a b c : string) : (a ++ b) ++ c = a ++ (b ++ c).
Proof. induction a as [|x a IH]; simpl; [reflexivity | now rewrite IH]. Qed.

Lemma append_empty_r (a : string) : a ++ EmptyString = a.
Proof. induction a as [|x a IH]; simpl; [reflexivity | now rewrite IH]. Qed.

Lemma prefix_append (s t : string) : prefix s (s ++ t) = true.
Proof.
  induction s as [|a s IH]; simpl.
  - now destruct t.
  - destruct (ascii_dec a a) as [_|ne]; [exact IH | now elim ne].
Qed.

Lemma prefix_split (s t : string) : prefix s t = true -> exists r, t = s ++ r.
Proof.
  revert t; induction s as [|a s IH]; intros t H.
  - now exists t.
  - destruct t as [|b t]; simpl in H; [discriminate|].
    destruct (ascii_dec a b) as [->|]; [|discriminate].
    destruct (IH _ H) as [r ->]. now exists r.
Qed.

(** [contains] is the substring test: [sub] occurs in [s] exactly when
    [s] is some text, then [sub], then some text. *)
Lemma contains_spec (sub s : string) :
  contains sub s = true <-> exists before after, s = before ++ sub ++ after.
Proof.
  split.
  - induction s as [|a s IH]; cbn [contains]; intros H.
    + destruct (prefix_split _ _ H) as [r Hr]. now exists EmptyString, r.
    + apply orb_true_iff in H as [H|H].
      * destruct (prefix_split _ _ H) as [r Hr]. now exists EmptyString, r.
      * destruct (IH H) as (x & y & ->). now exists (String a x), y.
  - intros (x & y & ->). induction x as [|a x IH].
    + change (EmptyString ++ sub ++ y) with (sub ++ y).
      destruct (sub ++ y) eqn:Hs; cbn [contains].
      * destruct sub; [reflexivity | discriminate].
      * rewrite <- Hs, prefix_append. reflexivity.
    + change (String a x ++ sub ++ y) with (String a (x ++ sub ++ y)).
      cbn [contains]. rewrite IH. apply orb_true_r.
Qed.

Lemma contains_middle (before sub after : string) :
  contains sub (before ++ sub ++ after) = true.
Proof. apply contains_spec. now exists before, after. Qed.

Lemma prefix_empty (s : string) : prefix EmptyString s = true.
Proof. now destruct s. Qed.

Lemma prefix_cons (a b : ascii) (s t : string) :
  prefix (String a s) (String b t) = if ascii_dec a b then prefix s t else false.
Proof. reflexivity. Qed.

Lemma replace_from_cons (old new : string) (a : ascii) (s : string) :
  replace_from old new 0 (String a s) =
  if prefix old (String a s)
  then new ++ replace_from old new (String.length old - 1) s
  else String a (replace_from old new 0 s).
Proof. reflexivity. Qed.

Lemma replace_space_underscored (s : string) : replace " " "_" s = underscored s.
Proof.
  unfold replace. induction s as [|a s IH]; [reflexivity|].
  rewrite replace_from_cons, prefix_cons, prefix_empty.
  change (underscored (String a s))
    with (String (if Ascii.eqb a " " then "_"%char else a) (underscored s)).
  change (String.length " " - 1) with 0. rewrite IH.
  destruct (ascii_dec " " a) as [<-|ne]; [reflexivity|].
  destruct (Ascii.eqb_spec a " ") as [->|_]; [now elim ne | reflexivity].
Qed.

Lemma underscored_length (s : string) : String.length (underscored s) = String.length s.
Proof. induction s as [|a s IH]; simpl; [reflexivity | now rewrite IH]. Qed.

Lemma underscored_no_space (s : string) : has_char " " (underscored s) = false.
Proof.
  induction s as [|a s IH]; simpl; [reflexivity|].
  rewrite IH, orb_false_r. destruct (Ascii.eqb_spec a " ") as [->|ne]; [reflexivity|].
  now apply Ascii.eqb_neq.
Qed.

(* ===================================================================== *)
(** * The thread list and its rendering *)
(* ===================================================================== *)

Lemma join_member (sep : string) (parts : list string) (p : string) :
  In p parts -> exists before after, join sep parts = before ++ p ++ after.
Proof.
  induction parts as [|q parts IH]; intros Hin; [contradiction|].
  destruct Hin as [->|Hin].
  - destruct parts as [|r parts].
    + exists EmptyString, EmptyString. simpl. now rewrite append_empty_r.
    + exists EmptyString, (sep ++ join sep (r :: parts)). reflexivity.
  - destruct (IH Hin) as (x & y & Hxy). destruct parts as [|r parts]; [contradiction|].
    exists (q ++ sep ++ x), y.
    change (join sep (q :: r :: parts)) with (q ++ sep ++ join sep (r :: parts)).
    rewrite Hxy. now rewrite !append_assoc.
Qed.

(** A live thread's name occurs in the rendering of the thread list. *)
Lemma live_thread_name_is_found (ts : list thread) (t : thread) :
  In t ts -> contains (thread_name t) (str_threads ts) = true.
Proof.
  intros Hin. apply contains_spec.
  destruct (join_member ", " (map repr_thread ts) (repr_thread t)) as (x & y & Hxy).
  { now apply in_map. }
  exists ("[" ++ x ++ "<" ++ thread_class t ++ "("), (", " ++ thread_status t ++ ")>" ++ y ++ "]").
  unfold str_threads. rewrite Hxy. unfold repr_thread.
  now rewrite !append_assoc.
Qed.

Lemma named_positive (n : string) (ts : list thread) :
  0 < named n ts -> exists t, In t ts /\ thread_name t = n.
Proof.
  unfold named. intros H.
  destruct (filter (fun t => String.eqb (thread_name t) n) ts) as [|t l] eqn:Hf;
    [simpl in H; lia|].
  assert (Ht : In t (filter (fun t => String.eqb (thread_name t) n) ts))
    by (rewrite Hf; now left).
  apply filter_In in Ht as [Hin Heq]. exists t. split; [assumption|].
  now apply String.eqb_eq.
Qed.

(** The registry check never misses a live thread of that name. *)
Lemma not_found_not_live (n : string) (ts : list thread) :
  contains n (str_threads ts) = false -> named n ts = 0.
Proof.
  intros H. destruct (named n ts) eqn:Hn; [reflexivity|].
  destruct (named_positive n ts) as (t & Hin & <-); [lia|].
  now rewrite (live_thread_name_is_found ts t Hin) in H.
Qed.

(* ===================================================================== *)
(** * One turn of the supervision pass *)
(* ===================================================================== *)

(** Unfolds the monad's operations and reduces on constructors only, so
    that the strings stay as the program builds them. *)
Ltac step_monad :=
  unfold bind, ret, raise, lift, emit, try_except, at_line, exc_lineno,
    threading_enumerate, after;
  cbn [fst snd live trace tb_lineno negb is_Exception is_ValueError].

Section Turn.

Variables (E : collaborators) (root : logger).
Variables (name : string) (lg : logger) (tracker : list (list status_entry)).
Variable st : state.

Let c := replace " " "_" name.

(** The registry reports the watcher active: nothing is started and the
    tracker is returned as it was. *)
Lemma turn_skipped :
  reported_active name (live st) = true ->
  supervise_container E root (name, lg) tracker st
  = (Ret tracker, after st [being_created root c; still_running root c]).
Proof.
  unfold reported_active, watcher_name. intros H.
  subst c. unfold supervise_container; step_monad. rewrite H; step_monad.
  now rewrite <- app_assoc.
Qed.

(** The start call raises: the turn raises a [ValueError]. *)
Lemma turn_raises (e : exn) (ts' : list thread) :
  reported_active name (live st) = false ->
  start_function_thread E c lg (c ++ "_thread") (live st) = (Raise e, ts') ->
  is_Exception e = true ->
  supervise_container E root (name, lg) tracker st
  = (Raise (ValueError (str_exn e ++ ", Error on line 113 in <__main__>")),
     mkState ts'
       (trace st ++ [being_created root c; starting root c; Spawn (c ++ "_thread") c lg])
       113).
Proof.
  unfold reported_active, watcher_name. intros H Hs He.
  subst c. unfold supervise_container, call_start_function_thread; step_monad.
  rewrite H; step_monad. rewrite Hs; step_monad. rewrite He.
  now rewrite <- !app_assoc.
Qed.

(** The start call returns and the registry then reports the watcher:
    a [Started] entry is added. *)
Lemma turn_started (ts' : list thread) :
  reported_active name (live st) = false ->
  start_function_thread E c lg (c ++ "_thread") (live st) = (Ret tt, ts') ->
  reported_active name ts' = true ->
  supervise_container E root (name, lg) tracker st
  = (Ret (tracker ++ [[mkEntry Started c]])%list,
     mkState ts'
       (trace st ++ [being_created root c; starting root c;
                     Spawn (c ++ "_thread") c lg; has_started root c])
       (tb_lineno st)).
Proof.
  unfold reported_active, watcher_name. intros H Hs Ha.
  subst c. unfold supervise_container, call_start_function_thread; step_monad.
  rewrite H; step_monad. rewrite Hs; step_monad. rewrite Ha; step_monad.
  now rewrite <- !app_assoc.
Qed.

(** The start call returns and the registry does not report the
    watcher: a [Failed] entry is added. *)
Lemma turn_failed (ts' : list thread) :
  reported_active name (live st) = false ->
  start_function_thread E c lg (c ++ "_thread") (live st) = (Ret tt, ts') ->
  reported_active name ts' = false ->
  supervise_container E root (name, lg) tracker st
  = (Ret (tracker ++ [[mkEntry Failed c]])%list,
     mkState ts'
       (trace st ++ [being_created root c; starting root c;
                     Spawn (c ++ "_thread") c lg; failed_to_start root c])
       (tb_lineno st)).
Proof.
  unfold reported_active, watcher_name. intros H Hs Ha.
  subst c. unfold supervise_container, call_start_function_thread; step_monad.
  rewrite H; step_monad. rewrite Hs; step_monad. rewrite Ha; step_monad.
  now rewrite <- !app_assoc.
Qed.

End Turn.

(* ===================================================================== *)
(** * The supervision pass *)
(* ===================================================================== *)

Lemma spawned_app (tr tr' : list event) :
  spawned (tr ++ tr') = (spawned tr ++ spawned tr')%list.
Proof.
  induction tr as [|ev tr IH]; [reflexivity|].
  destruct ev; cbn [app spawned]; now rewrite IH.
Qed.

Lemma after_after (st : state) (evs evs' : list event) :
  after (after st evs) evs' = after st (evs ++ evs').
Proof. unfold after; cbn [live trace tb_lineno]. now rewrite app_assoc. Qed.

Lemma after_nil (st : state) : after st [] = st.
Proof. destruct st; unfold after; cbn [live trace tb_lineno]. now rewrite app_nil_r. Qed.

Lemma supervise_all_cons (E : collaborators) (root : logger) (d : string * logger)
    (rest : list (string * logger)) (tracker : list (list status_entry)) (st : state) :
  supervise_all E root (d :: rest) tracker st
  = match supervise_container E root d tracker st with
    | (Ret tracker', st') => supervise_all E root rest tracker' st'
    | (Raise e, st') => (Raise e, st')
    end.
Proof. reflexivity. Qed.

Lemma create_docker_log_threads_unfold (E : collaborators) (root : logger)
    (containers : list (string * logger)) (st : state) :
  create_docker_log_threads E containers root st
  = supervise_all E root containers []
      (after st [Log root DEBUG "Creating individual threads for each docker container"]).
Proof. reflexivity. Qed.

(** C1, as the specification states it, fails on the program: with three
    containers of which the second cannot be started, the pass raises; it
    returns no result list, so no [Failed] entry, and the third container
    is never tried. *)
Lemma spawn_error_aborts_the_pass :
  let pass := create_docker_log_threads db_cannot_start
                [("web", "web"); ("db", "db"); ("cache", "cache")] "root" initial_state in
  fst pass = Raise (ValueError "can't start new thread, Error on line 113 in <__main__>")
  /\ spawned (trace (snd pass)) = ["web_thread"; "db_thread"]
  /\ (forall results, fst pass <> Ret results).
Proof. vm_compute. repeat split. discriminate. Qed.

(** C1, amended: when the start call of a container raises, the pass
    re-raises the error as a [ValueError] and ends there, whatever
    containers remain; a [Failed] entry is recorded, with an error line in
    the log, when the start call returns and the registry does not report
    the watcher afterwards, and then the pass goes on with the remaining
    containers. *)
Theorem spawn_error_is_reraised (E : collaborators) (root : logger)
    (name : string) (lg : logger) (rest : list (string * logger))
    (tracker : list (list status_entry)) (st : state) :
  reported_active name (live st) = false ->
  let c := replace " " "_" name in
  (forall e ts',
      start_function_thread E c lg (c ++ "_thread") (live st) = (Raise e, ts') ->
      is_Exception e = true ->
      supervise_all E root ((name, lg) :: rest) tracker st
      = (Raise (ValueError (str_exn e ++ ", Error on line 113 in <__main__>")),
         mkState ts'
           (trace st ++ [being_created root c; starting root c; Spawn (c ++ "_thread") c lg])
           113))
  /\ (forall ts',
      start_function_thread E c lg (c ++ "_thread") (live st) = (Ret tt, ts') ->
      reported_active name ts' = false ->
      supervise_all E root ((name, lg) :: rest) tracker st
      = supervise_all E root rest (tracker ++ [[mkEntry Failed c]])%list
          (mkState ts'
             (trace st ++ [being_created root c; starting root c;
                           Spawn (c ++ "_thread") c lg; failed_to_start root c])
             (tb_lineno st))).
Proof.
  intros Hidle c. split.
  - intros e ts' Hstart He. rewrite supervise_all_cons.
    now rewrite (turn_raises E root name lg tracker st e ts' Hidle Hstart He).
  - intros ts' Hstart Hgone. rewrite supervise_all_cons.
    now rewrite (turn_failed E root name lg tracker st ts' Hidle Hstart Hgone).
Qed.

Lemma spawn_error_is_reraised_witness :
  reported_active "db" (live initial_state) = false
  /\ fst (supervise_all db_cannot_start "root" [("db", "db"); ("cache", "cache")] []
            initial_state)
     = Raise (ValueError "can't start new thread, Error on line 113 in <__main__>")
  /\ fst (supervise_all db_ends_at_once "root" [("db", "db"); ("cache", "cache")]
            [[mkEntry Started "web"]] initial_state)
     = Ret [[mkEntry Started "web"]; [mkEntry Failed "db"]; [mkEntry Started "cache"]].
Proof.
  split; [reflexivity|]. split.
  - destruct (spawn_error_is_reraised db_cannot_start "root" "db" "db"
                [("cache", "cache")] [] initial_state eq_refl) as [Hraise _].
    exact (f_equal fst (Hraise _ _ eq_refl eq_refl)).
  - destruct (spawn_error_is_reraised db_ends_at_once "root" "db" "db"
                [("cache", "cache")] [[mkEntry Started "web"]] initial_state eq_refl)
      as [_ Hfailed].
    exact (f_equal fst (Hfailed _ eq_refl eq_refl)).
Defined.

(** C2: the program breaks the claim.  Started with no watcher alive and
    with every start succeeding, a pass over [myweb] and [web] returns one
    entry, not two: the name [web_thread] is found inside [myweb_thread]
    in the rendering of the live threads, so the pass logs that the thread
    [web_thread] is still running, though no thread of that name is
    alive, and starts nothing for [web].  The same two containers in the
    other order are both started. *)
Lemma colliding_names_yield_one_entry :
  let pass := create_docker_log_threads all_succeed
                [("myweb", "myweb"); ("web", "web")] "root" initial_state in
  fst pass = Ret [[mkEntry Started "myweb"]]
  /\ spawned (trace (snd pass)) = ["myweb_thread"]
  /\ fst pass <> Ret [[mkEntry Started "myweb"]; [mkEntry Started "web"]]
  /\ In (still_running "root" "web") (trace (snd pass))
  /\ map thread_name (live (snd pass)) = ["MainThread"; "myweb_thread"]
  /\ fst (create_docker_log_threads all_succeed
            [("web", "web"); ("myweb", "myweb")] "root" initial_state)
     = Ret [[mkEntry Started "web"]; [mkEntry Started "myweb"]].
Proof.
  cbv zeta. split; [vm_compute; reflexivity|]. split; [vm_compute; reflexivity|].
  split; [vm_compute; discriminate|]. split; [|split; vm_compute; reflexivity].
  vm_compute. do 6 right. left. reflexivity.
Qed.

Lemma supervise_all_started (E : collaborators) (root : logger)
    (containers : list (string * logger)) :
  forall (tracker : list (list status_entry)) (st : state),
    every_spawn_succeeds E containers (live st) = true ->
    fst (supervise_all E root containers tracker st)
    = Ret (tracker
           ++ map (fun d => [mkEntry Started (replace " " "_" (fst d))]) containers)%list.
Proof.
  induction containers as [|[name lg] rest IH]; intros tracker st H.
  - cbn. now rewrite app_nil_r.
  - cbn [every_spawn_succeeds] in H.
    destruct (start_function_thread E (replace " " "_" name) lg
                (replace " " "_" name ++ "_thread") (live st))
      as [[[]|e] ts'] eqn:Hstart; [|discriminate].
    apply andb_true_iff in H as [H Hrest]. apply andb_true_iff in H as [Hidle Hup].
    apply negb_true_iff in Hidle.
    rewrite supervise_all_cons.
    rewrite (turn_started E root name lg tracker st ts' Hidle Hstart Hup).
    rewrite IH by exact Hrest.
    cbn [map fst]. now rewrite <- app_assoc.
Qed.

(** Where the claim of one [Started] entry per container does hold: in a
    pass in which every container is found inactive when its turn comes
    and every start succeeds, the entries are those of the configured
    containers, in the configured order, under the normalized names. *)
Theorem pass_starts_every_container (E : collaborators) (root : logger)
    (containers : list (string * logger)) (st : state) :
  every_spawn_succeeds E containers (live st) = true ->
  fst (create_docker_log_threads E containers root st)
  = Ret (map (fun d => [mkEntry Started (replace " " "_" (fst d))]) containers).
Proof.
  intros H. rewrite create_docker_log_threads_unfold.
  now rewrite supervise_all_started.
Qed.

Lemma pass_starts_every_container_witness :
  every_spawn_succeeds all_succeed [("web", "web"); ("db", "db"); ("my cache", "cache")]
    (live initial_state) = true
  /\ fst (create_docker_log_threads all_succeed
            [("web", "web"); ("db", "db"); ("my cache", "cache")] "root" initial_state)
     = Ret [[mkEntry Started "web"]; [mkEntry Started "db"]; [mkEntry Started "my_cache"]].
Proof.
  split; [reflexivity|].
  exact (pass_starts_every_container all_succeed "root"
           [("web", "web"); ("db", "db"); ("my cache", "cache")] initial_state eq_refl).
Defined.

Lemma supervise_all_skipped (E : collaborators) (root : logger)
    (skipped : list (string * logger)) :
  forall (rest : list (string * logger)) (tracker : list (list status_entry)) (st : state),
    (forall d, In d skipped -> reported_active (fst d) (live st) = true) ->
    supervise_all E root (skipped ++ rest) tracker st
    = supervise_all E root rest tracker (after st (skip_events root skipped)).
Proof.
  induction skipped as [|[name lg] more IH]; intros rest tracker st H.
  - cbn [app skip_events flat_map]. now rewrite after_nil.
  - cbn [app]. rewrite supervise_all_cons.
    rewrite turn_skipped by exact (H (name, lg) (or_introl eq_refl)).
    rewrite IH by (intros d Hd; exact (H d (or_intror Hd))).
    now rewrite after_after.
Qed.

(** C3: a container whose watcher name the registry reports at the start
    of its turn gets no result entry; the turn only writes to the log and
    the pass moves on with the same tracker and the same threads.  Hence a
    pass over containers that are all reported active returns the empty
    list and starts nothing. *)
Theorem active_watchers_are_skipped (E : collaborators) (root : logger)
    (skipped rest : list (string * logger))
    (tracker : list (list status_entry)) (st : state) :
  (forall d, In d skipped -> reported_active (fst d) (live st) = true) ->
  supervise_all E root (skipped ++ rest) tracker st
  = supervise_all E root rest tracker (after st (skip_events root skipped))
  /\ create_docker_log_threads E skipped root st
     = (Ret [],
        after st (Log root DEBUG "Creating individual threads for each docker container"
                  :: skip_events root skipped)).
Proof.
  intros H. split; [now apply supervise_all_skipped|].
  rewrite create_docker_log_threads_unfold.
  rewrite <- (app_nil_r skipped) at 1.
  rewrite supervise_all_skipped by exact H.
  cbn [supervise_all]. unfold ret. now rewrite after_after.
Qed.



Lemma active_watchers_are_skipped_witness :
  (forall d, In d [("myweb", "myweb")] ->
             reported_active (fst d) (live myweb_is_watched) = true)
  /\ fst (create_docker_log_threads all_succeed [("myweb", "myweb")] "root" myweb_is_watched)
     = Ret [].
Proof.
  assert (H : forall d, In d [("myweb", "myweb")] ->
                        reported_active (fst d) (live myweb_is_watched) = true).
  { intros d [<-|[]]. reflexivity. }
  split; [exact H|].
  destruct (active_watchers_are_skipped all_succeed "root" [("myweb", "myweb")] [] []
              myweb_is_watched H) as [_ Hpass].
  exact (f_equal fst Hpass).
Defined.


(* ===================================================================== *)
(** * The registry check and the derived names *)
(* ===================================================================== *)

(** C9: the activity check is a substring test.  Whenever the watcher
    name of a container occurs anywhere in the rendering of the live
    threads, the pass starts nothing for it and returns no entry for it.
    So it is for [web] while only the watcher of [myweb] is alive: no live
    thread is named [web_thread], yet [web] is skipped. *)
Theorem registry_check_is_a_substring_test :
  (forall (E : collaborators) (root : logger) (name : string) (lg : logger) (st : state)
          (before behind : string),
      str_threads (live st) = before ++ watcher_name name ++ behind ->
      create_docker_log_threads E [(name, lg)] root st
      = (Ret [],
         after st [Log root DEBUG "Creating individual threads for each docker container";
                   being_created root (replace " " "_" name);
                   still_running root (replace " " "_" name)]))
  /\ (exists (name other : string) (st : state),
         name <> other
         /\ (exists before behind, watcher_name other = before ++ watcher_name name ++ behind)
         /\ named (watcher_name other) (live st) = 1
         /\ named (watcher_name name) (live st) = 0
         /\ forall (E : collaborators) (root lg : logger),
              create_docker_log_threads E [(name, lg)] root st
              = (Ret [],
                 after st [Log root DEBUG "Creating individual threads for each docker container";
                           being_created root (replace " " "_" name);
                           still_running root (replace " " "_" name)])).
Proof.
  assert (Hskip : forall (E : collaborators) (root : logger) (name : string) (lg : logger)
                         (st : state),
             reported_active name (live st) = true ->
             create_docker_log_threads E [(name, lg)] root st
             = (Ret [],
                after st [Log root DEBUG "Creating individual threads for each docker container";
                          being_created root (replace " " "_" name);
                          still_running root (replace " " "_" name)])).
  { intros E root name lg st H.
    rewrite create_docker_log_threads_unfold, supervise_all_cons.
    rewrite turn_skipped by exact H.
    cbn [supervise_all]. unfold ret. now rewrite after_after. }
  split.
  - intros E root name lg st before behind Hocc. apply Hskip.
    unfold reported_active. rewrite Hocc. apply contains_middle.
  - exists "web", "myweb", myweb_is_watched.
    split; [discriminate|].
    split; [now exists "my", EmptyString|].
    split; [reflexivity|].
    split; [reflexivity|].
    intros E root lg. now apply Hskip.
Qed.

(** C10: the watcher name is the container name with every space turned
    into an underscore, followed by [_thread]; an entry added by a turn
    carries the normalized name and the start call gets the derived
    thread name.  The map is not injective: [my app] and [my_app] derive
    the same watcher name, and a pass over both, with no watcher alive
    and every start succeeding, starts one watcher only, for the first,
    and reports it under the name [my_app]. *)
Theorem watcher_name_is_not_injective :
  (forall name,
      watcher_name name = underscored name ++ "_thread"
      /\ String.length (underscored name) = String.length name
      /\ has_char " " (underscored name) = false)
  /\ (forall (E : collaborators) (root : logger) (name : string) (lg : logger)
             (tracker tracker' : list (list status_entry)) (st st' : state),
         supervise_container E root (name, lg) tracker st = (Ret tracker', st') ->
         (tracker' = tracker /\ spawned (trace st') = spawned (trace st))
         \/ (exists outcome_of_start,
                tracker' = (tracker ++ [[mkEntry outcome_of_start (underscored name)]])%list
                /\ spawned (trace st')
                   = (spawned (trace st) ++ [(underscored name ++ "_thread")%string])%list))
  /\ (exists name1 name2,
         name1 <> name2
         /\ underscored name1 = underscored name2
         /\ watcher_name name1 = watcher_name name2
         /\ let pass := create_docker_log_threads all_succeed
                          [(name1, "spaced"); (name2, "underscored")] "root" initial_state in
            fst pass = Ret [[mkEntry Started "my_app"]]
            /\ spawned (trace (snd pass)) = ["my_app_thread"]
            /\ map thread_name (live (snd pass)) = ["MainThread"; "my_app_thread"]).
Proof.
  split; [|split].
  - intros name. unfold watcher_name. rewrite replace_space_underscored.
    split; [reflexivity|].
    split; [apply underscored_length | apply underscored_no_space].
  - intros E root name lg tracker tracker' st st' Hturn.
    destruct (reported_active name (live st)) eqn:Hact.
    + rewrite turn_skipped in Hturn by exact Hact. injection Hturn as <- <-.
      left. split; [reflexivity|].
      unfold after; cbn [trace]. rewrite spawned_app. cbn. now rewrite app_nil_r.
    + destruct (start_function_thread E (replace " " "_" name) lg
                  (replace " " "_" name ++ "_thread") (live st))
        as [[[]|e] ts'] eqn:Hstart.
      * right. destruct (reported_active name ts') eqn:Hup.
        -- rewrite (turn_started E root name lg tracker st ts' Hact Hstart Hup) in Hturn.
           injection Hturn as <- <-. exists Started.
           rewrite <- replace_space_underscored. split; [reflexivity|].
           cbn [trace]. rewrite spawned_app. reflexivity.
        -- rewrite (turn_failed E root name lg tracker st ts' Hact Hstart Hup) in Hturn.
           injection Hturn as <- <-. exists Failed.
           rewrite <- replace_space_underscored. split; [reflexivity|].
           cbn [trace]. rewrite spawned_app. reflexivity.
      * exfalso. revert Hturn.
        unfold supervise_container, call_start_function_thread; step_monad.
        unfold reported_active, watcher_name in Hact. rewrite Hact; step_monad.
        rewrite Hstart; step_monad. destruct e; discriminate.
  - exists "my app", "my_app".
    split; [discriminate|].
    split; [reflexivity|].
    split; [reflexivity|].
    vm_compute. repeat split.
Qed.


(* ===================================================================== *)
(** * The reader thread: decoding and trimming *)
(* ===================================================================== *)

Lemma to_N_byte_of_N (n : N) : (n <= 255)%N -> Byte.to_N (byte_of_N n) = n.
Proof.
  intros H. unfold byte_of_N.
  pose proof (Byte.to_of_N_option_map n) as Hm.
  destruct (Byte.of_N n) as [b|]; cbn [option_map] in Hm.
  - destruct (N.leb_spec n 255); [now injection Hm | discriminate].
  - destruct (N.leb_spec n 255); [discriminate | lia].
Qed.

Ltac settle_tests :=
  repeat (first
    [ rewrite (proj2 (N.ltb_lt _ _)) by lia
    | rewrite (proj2 (N.ltb_ge _ _)) by lia
    | rewrite (proj2 (N.leb_le _ _)) by lia
    | rewrite (proj2 (N.leb_gt _ _)) by lia
    | rewrite (proj2 (N.eqb_eq _ _)) by lia
    | rewrite (proj2 (N.eqb_neq _ _)) by lia ];
    cbn [andb orb]).

Lemma decode_one (pos : nat) (b0 : byte) (rest : list byte) :
  (Byte.to_N b0 < 128)%N ->
  utf_8_decode pos (b0 :: rest) = push (Byte.to_N b0) (utf_8_decode (pos + 1) rest).
Proof.
  intros H. cbn [utf_8_decode]. unfold between, continuation, push.
  now settle_tests.
Qed.

Lemma decode_two (pos : nat) (b0 b1 : byte) (rest : list byte) :
  (194 <= Byte.to_N b0 <= 223)%N -> (128 <= Byte.to_N b1 <= 191)%N ->
  utf_8_decode pos (b0 :: b1 :: rest)
  = push ((Byte.to_N b0 - 192) * 64 + (Byte.to_N b1 - 128))
         (utf_8_decode (pos + 2) rest).
Proof.
  intros H0 H1. cbn [utf_8_decode]. unfold between, continuation, push.
  now settle_tests.
Qed.

Lemma decode_three (pos : nat) (b0 b1 b2 : byte) (rest : list byte) :
  (224 <= Byte.to_N b0 <= 239)%N ->
  (128 <= Byte.to_N b1 <= 191)%N ->
  (Byte.to_N b0 = 224 -> 160 <= Byte.to_N b1)%N ->
  (Byte.to_N b0 = 237 -> Byte.to_N b1 <= 159)%N ->
  (128 <= Byte.to_N b2 <= 191)%N ->
  utf_8_decode pos (b0 :: b1 :: b2 :: rest)
  = push ((Byte.to_N b0 - 224) * 4096 + (Byte.to_N b1 - 128) * 64 + (Byte.to_N b2 - 128))
         (utf_8_decode (pos + 3) rest).
Proof.
  intros H0 H1 Hlo Hhi H2. cbn [utf_8_decode]. unfold between, continuation, push.
  destruct (N.eqb_spec (Byte.to_N b0) 224) as [e|n];
    destruct (N.eqb_spec (Byte.to_N b0) 237) as [e'|n']; try lia;
    try specialize (Hlo e); try specialize (Hhi e'); now settle_tests.
Qed.

Lemma decode_four (pos : nat) (b0 b1 b2 b3 : byte) (rest : list byte) :
  (240 <= Byte.to_N b0 <= 244)%N ->
  (128 <= Byte.to_N b1 <= 191)%N ->
  (Byte.to_N b0 = 240 -> 144 <= Byte.to_N b1)%N ->
  (Byte.to_N b0 = 244 -> Byte.to_N b1 <= 143)%N ->
  (128 <= Byte.to_N b2 <= 191)%N ->
  (128 <= Byte.to_N b3 <= 191)%N ->
  utf_8_decode pos (b0 :: b1 :: b2 :: b3 :: rest)
  = push ((Byte.to_N b0 - 240) * 262144 + (Byte.to_N b1 - 128) * 4096
          + (Byte.to_N b2 - 128) * 64 + (Byte.to_N b3 - 128))
         (utf_8_decode (pos + 4) rest).
Proof.
  intros H0 H1 Hlo Hhi H2 H3. cbn [utf_8_decode]. unfold between, continuation, push.
  destruct (N.eqb_spec (Byte.to_N b0) 240) as [e|n];
    destruct (N.eqb_spec (Byte.to_N b0) 244) as [e'|n']; try lia;
    try specialize (Hlo e); try specialize (Hhi e'); now settle_tests.
Qed.

Ltac div_mod_lia := zify; Z.to_euclidean_division_equations; lia.

Lemma decode_encode_char (c : N) (pos : nat) (rest : list byte) :
  is_scalar_value c = true ->
  exists pos', utf_8_decode pos (utf_8_encode_char c ++ rest)
               = push c (utf_8_decode pos' rest).
Proof.
  unfold is_scalar_value, utf_8_encode_char. intros Hc.
  apply orb_true_iff in Hc.
  assert (H : (c < 55296 \/ 57344 <= c < 1114112)%N).
  { destruct Hc as [Hc|Hc]; [left; now apply N.ltb_lt|right].
    apply andb_true_iff in Hc as [Ha Hb].
    apply N.leb_le in Ha. apply N.ltb_lt in Hb. lia. }
  clear Hc.
  destruct (N.ltb_spec c 128); [|destruct (N.ltb_spec c 2048); [|destruct (N.ltb_spec c 65536)]];
    cbn [app].
  - exists (pos + 1). rewrite decode_one; rewrite to_N_byte_of_N by lia; [reflexivity|lia].
  - exists (pos + 2).
    rewrite decode_two; rewrite ?to_N_byte_of_N by div_mod_lia; try div_mod_lia.
    f_equal. div_mod_lia.
  - exists (pos + 3).
    rewrite decode_three; rewrite ?to_N_byte_of_N by div_mod_lia; try div_mod_lia.
    f_equal. div_mod_lia.
  - exists (pos + 4).
    rewrite decode_four; rewrite ?to_N_byte_of_N by div_mod_lia; try div_mod_lia.
    f_equal. div_mod_lia.
Qed.

Lemma decode_encode (t : text) :
  forallb is_scalar_value t = true ->
  forall pos, utf_8_decode pos (utf_8_encode t) = inl t.
Proof.
  induction t as [|c t IH]; intros H pos; [reflexivity|].
  cbn [forallb] in H. apply andb_true_iff in H as [Hc Ht].
  unfold utf_8_encode. cbn [flat_map]. fold (utf_8_encode t).
  destruct (decode_encode_char c pos (utf_8_encode t) Hc) as [pos' ->].
  now rewrite IH.
Qed.

Lemma byte_of_N_to_N (b : byte) : byte_of_N (Byte.to_N b) = b.
Proof. unfold byte_of_N. now rewrite Byte.of_to_N. Qed.

Ltac scalar_test :=
  unfold is_scalar_value; settle_tests; reflexivity.

Lemma encode_one (b0 : byte) :
  (Byte.to_N b0 < 128)%N ->
  utf_8_encode_char (Byte.to_N b0) = [b0] /\ is_scalar_value (Byte.to_N b0) = true.
Proof.
  intros H. split; [|scalar_test].
  unfold utf_8_encode_char. settle_tests. now rewrite byte_of_N_to_N.
Qed.

Lemma encode_two (b0 b1 : byte) :
  (194 <= Byte.to_N b0 <= 223)%N -> (128 <= Byte.to_N b1 <= 191)%N ->
  let c := ((Byte.to_N b0 - 192) * 64 + (Byte.to_N b1 - 128))%N in
  utf_8_encode_char c = [b0; b1] /\ is_scalar_value c = true.
Proof.
  intros H0 H1 c. subst c. split; [|scalar_test].
  unfold utf_8_encode_char. settle_tests.
  match goal with |- [byte_of_N ?x; byte_of_N ?y] = _ =>
    replace x with (Byte.to_N b0) by div_mod_lia;
    replace y with (Byte.to_N b1) by div_mod_lia end.
  now rewrite !byte_of_N_to_N.
Qed.

Lemma encode_three (b0 b1 b2 : byte) :
  (224 <= Byte.to_N b0 <= 239)%N ->
  (128 <= Byte.to_N b1 <= 191)%N ->
  (Byte.to_N b0 = 224 -> 160 <= Byte.to_N b1)%N ->
  (Byte.to_N b0 = 237 -> Byte.to_N b1 <= 159)%N ->
  (128 <= Byte.to_N b2 <= 191)%N ->
  let c := ((Byte.to_N b0 - 224) * 4096 + (Byte.to_N b1 - 128) * 64
            + (Byte.to_N b2 - 128))%N in
  utf_8_encode_char c = [b0; b1; b2] /\ is_scalar_value c = true.
Proof.
  intros H0 H1 Hlo Hhi H2 c. subst c.
  assert (Hlo' : (Byte.to_N b0 = 224 \/ 225 <= Byte.to_N b0)%N) by lia.
  assert (Hhi' : (Byte.to_N b0 <= 236 \/ Byte.to_N b0 = 237 \/ 238 <= Byte.to_N b0)%N) by lia.
  split.
  - unfold utf_8_encode_char.
    destruct Hlo' as [e|g]; [specialize (Hlo e)|]; settle_tests;
    match goal with |- [byte_of_N ?x; byte_of_N ?y; byte_of_N ?z] = _ =>
      replace x with (Byte.to_N b0) by div_mod_lia;
      replace y with (Byte.to_N b1) by div_mod_lia;
      replace z with (Byte.to_N b2) by div_mod_lia end;
    now rewrite !byte_of_N_to_N.
  - destruct Hhi' as [l|[e|g]]; [| specialize (Hhi e) |]; scalar_test.
Qed.

Lemma encode_four (b0 b1 b2 b3 : byte) :
  (240 <= Byte.to_N b0 <= 244)%N ->
  (128 <= Byte.to_N b1 <= 191)%N ->
  (Byte.to_N b0 = 240 -> 144 <= Byte.to_N b1)%N ->
  (Byte.to_N b0 = 244 -> Byte.to_N b1 <= 143)%N ->
  (128 <= Byte.to_N b2 <= 191)%N ->
  (128 <= Byte.to_N b3 <= 191)%N ->
  let c := ((Byte.to_N b0 - 240) * 262144 + (Byte.to_N b1 - 128) * 4096
            + (Byte.to_N b2 - 128) * 64 + (Byte.to_N b3 - 128))%N in
  utf_8_encode_char c = [b0; b1; b2; b3] /\ is_scalar_value c = true.
Proof.
  intros H0 H1 Hlo Hhi H2 H3 c. subst c.
  assert (Hlo' : (Byte.to_N b0 = 240 \/ 241 <= Byte.to_N b0)%N) by lia.
  assert (Hhi' : (Byte.to_N b0 <= 243 \/ Byte.to_N b0 = 244)%N) by lia.
  split.
  - unfold utf_8_encode_char.
    destruct Hlo' as [e|g]; [specialize (Hlo e)|]; settle_tests;
    match goal with |- [byte_of_N ?x; byte_of_N ?y; byte_of_N ?z; byte_of_N ?w] = _ =>
      replace x with (Byte.to_N b0) by div_mod_lia;
      replace y with (Byte.to_N b1) by div_mod_lia;
      replace z with (Byte.to_N b2) by div_mod_lia;
      replace w with (Byte.to_N b3) by div_mod_lia end;
    now rewrite !byte_of_N_to_N.
  - destruct Hhi' as [l|e]; [| specialize (Hhi e)]; scalar_test.
Qed.

Ltac crack_tests :=
  repeat first
    [ match goal with
      | |- context [N.eqb ?a ?b] => destruct (N.eqb_spec a b); try lia
      end; cbn [andb]
    | match goal with
      | |- context [N.ltb ?a ?b] => destruct (N.ltb_spec a b); try lia
      | |- context [N.leb ?a ?b] => destruct (N.leb_spec a b); try lia
      end; cbn [andb]
    | match goal with
      | |- context [match ?r with [] => _ | _ :: _ => _ end] => is_var r; destruct r
      end ].

Lemma push_inl (c : N) (r : text + nat) (t : text) :
  push c r = inl t -> exists t', r = inl t' /\ t = c :: t'.
Proof. destruct r as [t'|p]; cbn; [|discriminate]. intros [= <-]. now exists t'. Qed.

Lemma decode_inversion (n : nat) :
  forall (line : list byte), List.length line <= n ->
  forall (pos : nat) (t : text),
    utf_8_decode pos line = inl t ->
    line = utf_8_encode t /\ forallb is_scalar_value t = true.
Proof.
  induction n as [|n IH]; intros line Hlen pos t H.
  - destruct line; [|cbn in Hlen; lia]. cbn in H. injection H as <-. now split.
  - destruct line as [|b0 r0]; [cbn in H; injection H as <-; now split|].
    cbn [List.length] in Hlen. revert H. cbn [utf_8_decode].
    unfold between, continuation.
    fold (push (Byte.to_N b0) (utf_8_decode (pos + 1) r0)).
    crack_tests; try discriminate.
    all: match goal with
         | |- match ?r with inl _ => _ | inr _ => _ end = _ -> _ =>
             destruct r as [t'|] eqn:Hd; [|discriminate]; intros [= <-]
         | |- push _ _ = _ -> _ =>
             let Hp := fresh "Hp" in
             intros Hp; apply push_inl in Hp as (t' & Hd & ->)
         end.
    all: cbn [List.length] in Hlen.
    all: match type of Hd with
         | utf_8_decode _ ?r = _ =>
             let Hr := fresh "Hr" in
             assert (Hr : List.length r <= n) by lia;
             destruct (IH r Hr _ _ Hd) as [-> Hs]; clear Hr
         end.
    all: unfold utf_8_encode; cbn [flat_map forallb]; fold (utf_8_encode t').
    all: match goal with
         | |- ?a :: ?b :: ?c :: ?d :: utf_8_encode _ = _ /\ _ =>
             destruct (encode_four a b c d) as [He Hc]; try lia
         | |- ?a :: ?b :: ?c :: utf_8_encode _ = _ /\ _ =>
             destruct (encode_three a b c) as [He Hc]; try lia
         | |- ?a :: ?b :: utf_8_encode _ = _ /\ _ =>
             destruct (encode_two a b) as [He Hc]; try lia
         | |- ?a :: utf_8_encode _ = _ /\ _ =>
             destruct (encode_one a) as [He Hc]; try lia
         end.
    all: cbv zeta in He, Hc; rewrite He, Hc, Hs; now split.
Qed.

(** The strict decoder accepts exactly the encodings of sequences of
    scalar values, and returns the sequence. *)
Lemma decode_accepts_exactly_utf_8 (line : list byte) (t : text) :
  utf_8_decode 0 line = inl t
  <-> line = utf_8_encode t /\ forallb is_scalar_value t = true.
Proof.
  split.
  - now apply (decode_inversion (List.length line)).
  - intros [-> H]. now apply decode_encode.
Qed.

Lemma lstrip_spec (t : text) :
  exists leading,
    t = (leading ++ lstrip t)%list
    /\ forallb isspace leading = true
    /\ forall c r, lstrip t = c :: r -> isspace c = false.
Proof.
  induction t as [|a t (leading & Heq & Hsp & Hhd)].
  - exists []. repeat split. discriminate.
  - cbn [lstrip]. destruct (isspace a) eqn:Ha.
    + exists (a :: leading). cbn [app forallb]. rewrite Ha, Hsp, <- Heq. now repeat split.
    + exists []. repeat split. now intros c r [= <- <-].
Qed.

Lemma forallb_rev {A} (f : A -> bool) (l : list A) :
  forallb f l = true -> forallb f (rev l) = true.
Proof.
  rewrite !forallb_forall. intros H x Hx. apply H. now apply in_rev.
Qed.

(** What [strip] does: it removes a run of white space at each end and
    what is left neither begins nor ends with white space. *)
Lemma strip_spec (t : text) :
  exists leading trailing,
    t = (leading ++ strip t ++ trailing)%list
    /\ forallb isspace leading = true
    /\ forallb isspace trailing = true
    /\ (forall c r, strip t = c :: r -> isspace c = false)
    /\ (forall r c, strip t = (r ++ [c])%list -> isspace c = false).
Proof.
  destruct (lstrip_spec t) as (leading & Ht & Hlead & Hhead).
  destruct (lstrip_spec (rev (lstrip t))) as (gone & Hr & Hgone & Hlast).
  assert (Hu : lstrip t = (strip t ++ rev gone)%list).
  { unfold strip, rstrip. rewrite <- rev_app_distr, <- Hr. now rewrite rev_involutive. }
  exists leading, (rev gone). repeat split.
  - now rewrite <- Hu.
  - exact Hlead.
  - now apply forallb_rev.
  - intros c r Hs. rewrite Hs in Hu. exact (Hhead c _ Hu).
  - intros r c Hs. unfold strip, rstrip in Hs.
    apply (f_equal (@rev N)) in Hs. rewrite rev_involutive, rev_app_distr in Hs.
    exact (Hlast c _ Hs).
Qed.

Lemma forward_line_decoded (lg : logger) (line : list byte) (t : text) (st : state) :
  utf_8_decode 0 line = inl t ->
  forward_line lg line st = (Ret tt, after st [Log lg INFO (strip t)]).
Proof. intros H. unfold forward_line; step_monad. now rewrite H. Qed.

Lemma forward_line_undecodable (lg : logger) (line : list byte) (pos : nat) (st : state) :
  utf_8_decode 0 line = inr pos ->
  forward_line lg line st
  = (Raise (OtherException "UnicodeDecodeError" (utf_8_error_message line pos)), st).
Proof. intros H. unfold forward_line; step_monad. now rewrite H. Qed.

(** The lines of a stream that all decode are forwarded one after the
    other. *)
Lemma forward_all_decoded (lg : logger) (texts : list text) :
  forallb (forallb is_scalar_value) texts = true ->
  forall (more : list (list byte)) (st : state),
    for_each (map utf_8_encode texts ++ more)
      (fun line => at_line 61 (forward_line lg line)) st
    = for_each more (fun line => at_line 61 (forward_line lg line))
        (after st (map (fun t => Log lg INFO (strip t)) texts)).
Proof.
  induction texts as [|t texts IH]; intros H more st.
  - cbn [map app]. now rewrite after_nil.
  - cbn [forallb] in H. apply andb_true_iff in H as [Ht H].
    cbn [map app for_each]. unfold bind at 1, at_line at 1.
    rewrite (forward_line_decoded lg _ t) by now apply decode_encode.
    rewrite IH by exact H. now rewrite after_after.
Qed.

(** C4, as the specification states it, fails on the program: a line that
    is not UTF-8 makes the decode step raise; the reader ends with a
    [ValueError], and neither that line nor the line after it reaches the
    container's logger. *)
Lemma invalid_bytes_stop_the_reader :
  fst (forward_line "web" [xff; xfe; x0a] initial_state)
  = Raise (OtherException "UnicodeDecodeError"
             "'utf-8' codec can't decode byte 0xff in position 0: invalid start byte")
  /\ let run := get_docker_log garbled_stream "web" "web" "root" initial_state in
     fst run
     = Raise (ValueError
                "The sub-process failed to run. 'utf-8' codec can't decode byte 0xff in position 0: invalid start byte, Originating error on line 61 in <__main__>")
     /\ logged "web" (trace (snd run)) = [text_of_string "ok"].
Proof. vm_compute. repeat split. Qed.

(** C4, amended: a line that is well-formed UTF-8 is decoded without an
    error and forwarded, trimmed, to the container's logger.  A line that
    is not well-formed UTF-8 makes the decode step raise and nothing is
    forwarded for it; the reader then ends with a [ValueError], having
    forwarded the lines before it and none after it. *)
Theorem only_valid_utf_8_is_forwarded :
  (forall (lg : logger) (decoded : text) (st : state),
      forallb is_scalar_value decoded = true ->
      forward_line lg (utf_8_encode decoded) st
      = (Ret tt, after st [Log lg INFO (strip decoded)]))
  /\ (forall (lg : logger) (line : list byte) (st : state),
      (forall decoded, forallb is_scalar_value decoded = true ->
                       line <> utf_8_encode decoded) ->
      exists msg,
        forward_line lg line st = (Raise (OtherException "UnicodeDecodeError" msg), st))
  /\ (forall (E : collaborators) (name : string) (lg root : logger)
             (texts : list text) (line : list byte) (later : list (list byte))
             (st : state),
      Popen E ["docker"; "logs"; "-f"; name]
      = Ret (map utf_8_encode texts ++ line :: later)%list ->
      forallb (forallb is_scalar_value) texts = true ->
      (forall decoded, forallb is_scalar_value decoded = true ->
                       line <> utf_8_encode decoded) ->
      exists msg,
        get_docker_log E name lg root st
        = (Raise (ValueError msg),
           mkState (live st)
             (trace st
              ++ [Log root DEBUG
                    ("Starting to redirect the docker container logs for " ++ name);
                  Log root DEBUG
                    ("Processing agruments = "
                     ++ repr_str_list ["docker"; "logs"; "-f"; name])]
              ++ map (fun t => Log lg INFO (strip t)) texts)
             61)).
Proof.
  assert (Hbad : forall line : list byte,
             (forall decoded, forallb is_scalar_value decoded = true ->
                              line <> utf_8_encode decoded) ->
             exists pos, utf_8_decode 0 line = inr pos).
  { intros line Hnot. destruct (utf_8_decode 0 line) as [t|pos] eqn:Hd.
    - apply decode_accepts_exactly_utf_8 in Hd as [Henc Hsc].
      now elim (Hnot t Hsc).
    - now exists pos. }
  split; [|split].
  - intros lg decoded st Hsc. apply forward_line_decoded. now apply decode_encode.
  - intros lg line st Hnot. destruct (Hbad line Hnot) as [pos Hd].
    eexists. apply forward_line_undecodable. exact Hd.
  - intros E name lg root texts line later st Hpopen Htexts Hnot.
    destruct (Hbad line Hnot) as [pos Hd].
    eexists. unfold get_docker_log.
    unfold try_except, bind at 1 2 3, emit at 1 2, at_line at 1, lift at 1.
    cbn [live trace tb_lineno]. rewrite Hpopen.
    unfold bind at 1. rewrite forward_all_decoded by exact Htexts.
    cbn [for_each]. unfold bind at 1, at_line at 1.
    rewrite (forward_line_undecodable lg line pos) by exact Hd.
    cbn [is_Exception]. step_monad.
    apply f_equal2; [reflexivity|].
    apply (f_equal (fun tr => mkState (live st) tr 61)).
    now rewrite <- !app_assoc.
Qed.

Lemma only_valid_utf_8_is_forwarded_witness :
  (forall decoded, forallb is_scalar_value decoded = true ->
                   [xff; xfe; x0a] <> utf_8_encode decoded)
  /\ exists msg,
       get_docker_log garbled_stream "web" "web" "root" initial_state
       = (Raise (ValueError msg),
          mkState (live initial_state)
            (trace initial_state
             ++ [Log "root" DEBUG "Starting to redirect the docker container logs for web";
                 Log "root" DEBUG "Processing agruments = ['docker', 'logs', '-f', 'web']"]
             ++ [Log "web" INFO "ok"])
            61).
Proof.
  assert (Hbad : forall decoded, forallb is_scalar_value decoded = true ->
                                 [xff; xfe; x0a] <> utf_8_encode decoded).
  { intros decoded Hsc Heq.
    assert (Hd : utf_8_decode 0 [xff; xfe; x0a] = inl decoded)
      by (apply decode_accepts_exactly_utf_8; now split).
    discriminate Hd. }
  split; [exact Hbad|].
  exact (proj2 (proj2 only_valid_utf_8_is_forwarded) garbled_stream "web" "web" "root"
           [[111; 107; 10]%N] [xff; xfe; x0a] [[x6c; x61; x74; x65; x72; x0a]]
           initial_state eq_refl eq_refl Hbad).
Defined.

(** C8, as the specification states it, fails on the program: of a line
    that begins with two spaces the leading spaces are removed as well;
    what is forwarded is not the decoded line with its trailing white
    space removed. *)
Lemma leading_whitespace_is_trimmed_too :
  utf_8_decode 0 indented_line = inl [32; 32; 104; 105; 32; 10]%N
  /\ rstrip [32; 32; 104; 105; 32; 10]%N = [32; 32; 104; 105]%N
  /\ forward_line "web" indented_line initial_state
     = (Ret tt, after initial_state [Log "web" INFO [104; 105]%N])
  /\ [104; 105]%N <> rstrip [32; 32; 104; 105; 32; 10]%N.
Proof. vm_compute. repeat split. discriminate. Qed.

(** C8, amended: what is forwarded for a line is the decoded line without
    the white space at its two ends: the decoded line is a run of white
    space, the forwarded text, and a run of white space, and the
    forwarded text neither begins nor ends with white space.  The inside
    of the line is unchanged. *)
Theorem forwarded_text_is_trimmed_at_both_ends (lg : logger) (line : list byte)
    (decoded : text) (st : state) :
  utf_8_decode 0 line = inl decoded ->
  exists leading forwarded trailing,
    forward_line lg line st = (Ret tt, after st [Log lg INFO forwarded])
    /\ decoded = (leading ++ forwarded ++ trailing)%list
    /\ forallb isspace leading = true
    /\ forallb isspace trailing = true
    /\ (forall c r, forwarded = c :: r -> isspace c = false)
    /\ (forall r c, forwarded = (r ++ [c])%list -> isspace c = false).
Proof.
  intros Hd. destruct (strip_spec decoded) as (leading & trailing & H).
  exists leading, (strip decoded), trailing.
  split; [now apply forward_line_decoded | exact H].
Qed.

Lemma forwarded_text_is_trimmed_at_both_ends_witness :
  utf_8_decode 0 indented_line = inl [32; 32; 104; 105; 32; 10]%N
  /\ exists leading forwarded trailing,
       forward_line "web" indented_line initial_state
       = (Ret tt, after initial_state [Log "web" INFO forwarded])
       /\ [32; 32; 104; 105; 32; 10]%N = (leading ++ forwarded ++ trailing)%list
       /\ forallb isspace leading = true
       /\ forallb isspace trailing = true
       /\ (forall c r, forwarded = c :: r -> isspace c = false)
       /\ (forall r c, forwarded = (r ++ [c])%list -> isspace c = false).
Proof.
  split; [reflexivity|].
  exact (forwarded_text_is_trimmed_at_both_ends "web" indented_line
           [32; 32; 104; 105; 32; 10]%N initial_state eq_refl).
Defined.

(* ===================================================================== *)
(** * What a computation does to the thread list *)
(* ===================================================================== *)

Section Preservation.

Variable P : list thread -> Prop.

Lemma preserves_ret {A} (a : A) : preserves P (ret a).
Proof. now intros st H. Qed.

Lemma preserves_raise {A} (e : exn) : preserves P (@raise A e).
Proof. now intros st H. Qed.

Lemma preserves_lift {A} (r : outcome A) : preserves P (lift r).
Proof. now intros st H. Qed.

Lemma preserves_emit (ev : event) : preserves P (emit ev).
Proof. now intros st H. Qed.

Lemma preserves_exc_lineno : preserves P exc_lineno.
Proof. now intros st H. Qed.

Lemma preserves_threading_enumerate : preserves P threading_enumerate.
Proof. now intros st H. Qed.

Lemma preserves_bind {A B} (m : M A) (k : A -> M B) :
  preserves P m -> (forall a, preserves P (k a)) -> preserves P (bind m k).
Proof.
  intros Hm Hk st H. unfold bind. specialize (Hm st H).
  destruct (m st) as [[a|e] st']; cbn [snd] in *; [now apply Hk | exact Hm].
Qed.

Lemma preserves_try_except {A} (m : M A) (caught : exn -> bool) (handler : exn -> M A) :
  preserves P m -> (forall e, preserves P (handler e)) ->
  preserves P (try_except m caught handler).
Proof.
  intros Hm Hh st H. unfold try_except. specialize (Hm st H).
  destruct (m st) as [[a|e] st']; cbn [snd] in *; [exact Hm|].
  destruct (caught e); [now apply Hh | exact Hm].
Qed.

Lemma preserves_at_line {A} (line : nat) (m : M A) : 
  preserves P m -> preserves P (at_line line m).
Proof.
  intros Hm st H. unfold at_line. specialize (Hm st H).
  now destruct (m st) as [[a|e] st'].
Qed.

Lemma preserves_for_each {A} (xs : list A) (body : A -> M unit) :
  (forall x, preserves P (body x)) -> preserves P (for_each xs body).
Proof.
  intros Hb. induction xs as [|x xs IH]; cbn [for_each].
  - apply preserves_ret.
  - apply preserves_bind; [apply Hb | intros _; exact IH].
Qed.

End Preservation.

Create HintDb threads.
#[local] Hint Resolve preserves_ret preserves_raise preserves_lift preserves_emit
  preserves_exc_lineno preserves_threading_enumerate : threads.

(** Goes through a computation built from the monad's operations,
    splitting on the tests and the values it inspects. *)
Ltac keep_threads :=
  repeat first
    [ progress (intros; cbv zeta)
    | solve [auto 1 with threads]
    | apply preserves_bind
    | apply preserves_try_except
    | apply preserves_at_line
    | apply preserves_for_each
    | match goal with
      | |- preserves _ (if ?b then _ else _) => destruct b
      | |- preserves _ (match ?v with _ => _ end) => destruct v
      end ].

Section ConfigurationKeepsThreads.

Variables (P : list thread -> Prop) (E : collaborators).

Lemma preserves_validation_str (key : string) (v : yaml) :
  preserves P (yaml_value_validation_str key v).
Proof. unfold yaml_value_validation_str, validation_error. keep_threads. Qed.

Lemma preserves_validation_bool (key : string) (v : yaml) :
  preserves P (yaml_value_validation_bool key v).
Proof. unfold yaml_value_validation_bool, validation_error. keep_threads. Qed.

Lemma preserves_validation_int (key : string) (v : yaml) :
  preserves P (yaml_value_validation_int key v).
Proof. unfold yaml_value_validation_int, validation_error. keep_threads. Qed.

Lemma preserves_get_setting (cfg : yaml) (section key : string) :
  preserves P (get_setting cfg section key).
Proof. unfold get_setting. keep_threads. Qed.

Lemma preserves_require_root_key (cfg : yaml) (key shown : string) (line : nat) :
  preserves P (require_root_key cfg key shown line).
Proof. unfold require_root_key. keep_threads. Qed.

Lemma preserves_startup_handler {A} (e : exn) : preserves P (@startup_handler A e).
Proof. unfold startup_handler. keep_threads. Qed.

Hint Resolve preserves_validation_str preserves_validation_bool preserves_validation_int
  preserves_get_setting preserves_require_root_key preserves_startup_handler : threads.

Lemma preserves_container_logger (path : string) (size : Z) (entry : string * yaml)
    (loggers : list (string * logger)) :
  preserves P (create_docker_container_logger E path size entry loggers).
Proof. unfold create_docker_container_logger. keep_threads. Qed.

Lemma preserves_container_loggers_from (path : string) (size : Z)
    (entries : list (string * yaml)) :
  forall loggers,
    preserves P (create_docker_container_loggers_from E path size entries loggers).
Proof.
  induction entries as [|entry rest IH]; intros loggers;
    cbn [create_docker_container_loggers_from].
  - apply preserves_ret.
  - apply preserves_bind; [apply preserves_container_logger | intros ?; apply IH].
Qed.

Hint Resolve preserves_container_loggers_from : threads.

Lemma preserves_container_loggers (cfg : yaml) (path : string) (size : Z) :
  preserves P (create_docker_container_loggers E cfg path size).
Proof. unfold create_docker_container_loggers. keep_threads. Qed.

Hint Resolve preserves_container_loggers : threads.

Lemma preserves_populate_startup_variables :
  preserves P (populate_startup_variables E).
Proof. unfold populate_startup_variables, startup_body, call_os_makedirs. keep_threads. Qed.

Lemma preserves_main_handler (root : logger) (alerts errors : bool)
    (settings : email_settings) (err : exn) :
  preserves P (main_handler E root alerts errors settings err).
Proof. unfold main_handler, call_send_email. keep_threads. Qed.

End ConfigurationKeepsThreads.

(* ===================================================================== *)
(** * At most one reader per container *)
(* ===================================================================== *)

Lemma named_le_length (n : string) (ts : list thread) : named n ts <= List.length ts.
Proof. unfold named. apply filter_length_le. Qed.

Lemma named_app (n : string) (ts ts' : list thread) :
  named n (ts ++ ts') = named n ts + named n ts'.
Proof. unfold named. now rewrite filter_app, length_app. Qed.

(** The threads after a turn that found the container inactive are those
    the start call leaves. *)
Lemma turn_threads (E : collaborators) (root : logger) (name : string) (lg : logger)
    (tracker : list (list status_entry)) (st : state) :
  reported_active name (live st) = false ->
  live (snd (supervise_container E root (name, lg) tracker st))
  = snd (start_function_thread E (replace " " "_" name) lg
           (replace " " "_" name ++ "_thread") (live st)).
Proof.
  intros Hidle.
  destruct (start_function_thread E (replace " " "_" name) lg
              (replace " " "_" name ++ "_thread") (live st))
    as [[[]|e] ts'] eqn:Hstart.
  - destruct (reported_active name ts') eqn:Hup.
    + now rewrite (turn_started E root name lg tracker st ts' Hidle Hstart Hup).
    + now rewrite (turn_failed E root name lg tracker st ts' Hidle Hstart Hup).
  - unfold reported_active, watcher_name in Hidle.
    unfold supervise_container, call_start_function_thread; step_monad.
    rewrite Hidle; step_monad. rewrite Hstart; step_monad. now destruct e.
Qed.

Section OneReader.

Variable E : collaborators.
Hypothesis start_adds_one : starts_at_most_one E.
Hypothesis sleep_ends : sleep_only_ends E.

Lemma turn_keeps_one_reader (root : logger) (d : string * logger)
    (tracker : list (list status_entry)) :
  preserves one_reader_per_container (supervise_container E root d tracker).
Proof.
  destruct d as [name lg]. intros st Hinv.
  destruct (reported_active name (live st)) eqn:Hact.
  - now rewrite turn_skipped.
  - rewrite turn_threads by exact Hact. intros other.
    pose proof (start_adds_one (replace " " "_" name) lg
                  (replace " " "_" name ++ "_thread") (live st) (watcher_name other))
      as Hle.
    destruct (String.eqb_spec (watcher_name other) (replace " " "_" name ++ "_thread"))
      as [Heq|Hne].
    + rewrite Heq in *. apply not_found_not_live in Hact.
      unfold watcher_name in Hact. lia.
    + specialize (Hinv other). lia.
Qed.

Lemma pass_steps_keep_one_reader (root : logger) (containers : list (string * logger)) :
  forall tracker,
    preserves one_reader_per_container (supervise_all E root containers tracker).
Proof.
  induction containers as [|d rest IH]; intros tracker; cbn [supervise_all].
  - apply preserves_ret.
  - apply preserves_bind; [apply turn_keeps_one_reader | intros ?; apply IH].
Qed.

Lemma pass_keeps_one_reader (root : logger) (containers : list (string * logger)) :
  preserves one_reader_per_container (create_docker_log_threads E containers root).
Proof.
  unfold create_docker_log_threads.
  apply preserves_bind; [apply preserves_emit | intros ?; apply pass_steps_keep_one_reader].
Qed.

Lemma main_keeps_one_reader : preserves one_reader_per_container (main E).
Proof.
  unfold main. apply preserves_bind; [apply preserves_populate_startup_variables|].
  intros sv. cbv zeta.
  repeat (apply preserves_bind; [apply preserves_emit | intros _]).
  apply preserves_bind; [|intros _; apply preserves_emit].
  apply preserves_try_except; [|intros e; apply preserves_main_handler].
  apply preserves_bind; [apply preserves_at_line, pass_keeps_one_reader|].
  intros thread_status. unfold call_send_email. keep_threads.
Qed.

Lemma sleep_keeps_one_reader : preserves one_reader_per_container (call_time_sleep E).
Proof.
  intros st Hinv other. unfold call_time_sleep; cbn [snd live].
  specialize (Hinv other). specialize (sleep_ends (live st) (watcher_name other)). lia.
Qed.

Lemma main_loop_keeps_one_reader (passes : nat) :
  preserves one_reader_per_container (main_loop E passes).
Proof.
  induction passes as [|n IH]; cbn [main_loop].
  - apply preserves_ret.
  - apply preserves_bind; [apply main_keeps_one_reader | intros _].
    apply preserves_bind; [apply sleep_keeps_one_reader | intros _; exact IH].
Qed.

End OneReader.

Lemma all_succeed_starts_at_most_one : starts_at_most_one all_succeed.
Proof.
  intros c lg name ts n. unfold all_succeed, collaborators_with.
  cbn [start_function_thread existsb snd]. rewrite named_app.
  unfold named at 2, watcher. cbn [filter thread_name].
  rewrite String.eqb_sym. destruct (String.eqb n name); cbn [List.length]; lia.
Qed.

Lemma all_succeed_sleep_only_ends : sleep_only_ends all_succeed.
Proof. intros ts n. unfold all_succeed, collaborators_with. cbn [time_sleep]. lia. Qed.

Lemma initially_one_reader : one_reader_per_container (live initial_state).
Proof. intros other. apply (named_le_length _ [main_thread]). Qed.

(** C7: at most one live reader thread exists per container name.  If
    [start_function_thread] starts at most one thread, under the name it
    is given, and threads otherwise only end, the property holds after
    every turn of a pass and after every number of passes and sleeps,
    because a turn calls [start_function_thread] only when the registry
    check has found no thread of that name. *)
Theorem at_most_one_reader_per_container (E : collaborators) (st : state) :
  starts_at_most_one E ->
  sleep_only_ends E ->
  one_reader_per_container (live st) ->
  (forall root containers tracker,
      one_reader_per_container (live (snd (supervise_all E root containers tracker st))))
  /\ (forall passes, one_reader_per_container (live (snd (main_loop E passes st)))).
Proof.
  intros Hstart Hsleep Hinv. split.
  - intros root containers tracker.
    now apply pass_steps_keep_one_reader.
  - intros passes. now apply main_loop_keeps_one_reader.
Qed.

Lemma at_most_one_reader_per_container_witness :
  starts_at_most_one all_succeed
  /\ sleep_only_ends all_succeed
  /\ one_reader_per_container (live initial_state)
  /\ one_reader_per_container (live (snd (main_loop all_succeed 2 initial_state)))
  /\ map thread_name (live (snd (main_loop all_succeed 2 initial_state)))
     = ["MainThread"; "web_thread"].
Proof.
  split; [exact all_succeed_starts_at_most_one|].
  split; [exact all_succeed_sleep_only_ends|].
  split; [exact initially_one_reader|].
  split; [|reflexivity].
  exact (proj2 (at_most_one_reader_per_container all_succeed initial_state
                  all_succeed_starts_at_most_one all_succeed_sleep_only_ends
                  initially_one_reader) 2).
Defined.

(* ===================================================================== *)
(** * Configuration errors and the handler of [main] *)
(* ===================================================================== *)

Lemma bind_emit {A} (ev : event) (k : unit -> M A) (st : state) :
  bind (emit ev) k st = k tt (after st [ev]).
Proof. reflexivity. Qed.

Lemma require_root_key_run (cfg : yaml) (key shown : string) (line : nat) (st : state) :
  require_root_key cfg key shown line st
  = match py_in key cfg with
    | Ret true => (Ret tt, st)
    | Ret false =>
        (Raise (ValueError ("The '" ++ shown
                            ++ "' key is missing from the YAML file, Originating error on line "
                            ++ str_nat line ++ " in <" ++ module_name ++ ">")), st)
    | Raise e => (Raise e, st)
    end.
Proof.
  unfold require_root_key; step_monad. now destruct (py_in key cfg) as [[|]|e].
Qed.

(** Whatever the error, the handler of [populate_startup_variables]
    raises a [ValueError] and leaves the state as it finds it. *)
Lemma startup_handler_raises {A} (e : exn) (st : state) :
  exists msg, @startup_handler A e st = (Raise (ValueError msg), st).
Proof.
  unfold startup_handler.
  destruct (is_NameError e); [eexists; reflexivity|].
  destruct (is_KeyError e); eexists; reflexivity.
Qed.

(** A test on a configuration either raises for every key or answers for
    every key. *)
Lemma py_in_answers (cfg : yaml) :
  (exists e, is_Exception e = true /\ forall key, py_in key cfg = Raise e)
  \/ (forall key, exists b, py_in key cfg = Ret b).
Proof.
  destruct cfg; cbn [py_in type_name];
    try (left; eexists; split; [|intros key; reflexivity]; reflexivity);
    right; intros key; eauto.
Qed.

Lemma missing_section_stops_startup (E : collaborators) (st : state) (cfg : yaml)
    (key : string) :
  read_yaml_config E "docker_log_redirect.yaml" = Ret cfg ->
  In key ["general"; "docker_container"; "email"; "logging"] ->
  py_in key cfg <> Ret true ->
  exists msg, populate_startup_variables E st = (Raise (ValueError msg), st).
Proof.
  intros Hread Hkey Habsent.
  unfold populate_startup_variables, startup_body, try_except.
  unfold bind at 1, lift at 1. rewrite Hread.
  unfold bind at 1. rewrite require_root_key_run.
  destruct (py_in_answers cfg) as [(e & He & Hraise)|Hanswer].
  { rewrite Hraise, He. apply startup_handler_raises. }
  destruct (Hanswer "general") as [g Hg].
  destruct (Hanswer "docker_container") as [d Hd].
  destruct (Hanswer "email") as [m Hm].
  destruct (Hanswer "logging") as [l Hl].
  assert (Hone : g = false \/ d = false \/ m = false \/ l = false).
  { cbn [In] in Hkey. destruct Hkey as [<-|[<-|[<-|[<-|[]]]]].
    - left. destruct g; congruence.
    - right; left. destruct d; congruence.
    - right; right; left. destruct m; congruence.
    - right; right; right. destruct l; congruence. }
  rewrite Hg.
  destruct g; [|apply (startup_handler_raises (ValueError _))].
  unfold bind at 1. rewrite require_root_key_run, Hd.
  destruct d; [|apply (startup_handler_raises (ValueError _))].
  unfold bind at 1. rewrite require_root_key_run, Hm.
  destruct m; [|apply (startup_handler_raises (ValueError _))].
  unfold bind at 1. rewrite require_root_key_run, Hl.
  destruct l; [|apply (startup_handler_raises (ValueError _))].
  destruct Hone as [H|[H|[H|H]]]; discriminate.
Qed.

(** An error of [populate_startup_variables] leaves [main], and the loop
    around it, as it is. *)
Lemma startup_error_leaves_main (E : collaborators) (st st1 : state) (e : exn) :
  populate_startup_variables E st = (Raise e, st1) ->
  main E st = (Raise e, st1)
  /\ forall passes, main_loop E (S passes) st = (Raise e, st1).
Proof.
  intros H.
  assert (Hmain : main E st = (Raise e, st1)) by (unfold main, bind at 1; now rewrite H).
  split; [exact Hmain|].
  intros passes. cbn [main_loop]. unfold bind at 1. now rewrite Hmain.
Qed.

(** C6: when one of the sections [general], [docker_container], [email]
    and [logging] is absent from the loaded configuration (the test
    [key in config] does not answer [True]), startup fails with a
    [ValueError] that leaves [main] and ends the loop, and the state is
    unchanged: no watcher has been started, nothing was logged. *)
Theorem missing_section_is_fatal (E : collaborators) (st : state) (cfg : yaml)
    (key : string) :
  read_yaml_config E "docker_log_redirect.yaml" = Ret cfg ->
  In key ["general"; "docker_container"; "email"; "logging"] ->
  py_in key cfg <> Ret true ->
  exists msg,
    populate_startup_variables E st = (Raise (ValueError msg), st)
    /\ main E st = (Raise (ValueError msg), st)
    /\ (forall passes, main_loop E (S passes) st = (Raise (ValueError msg), st))
    /\ spawned (trace (snd (main E st))) = spawned (trace st).
Proof.
  intros Hread Hkey Habsent.
  destruct (missing_section_stops_startup E st cfg key Hread Hkey Habsent) as [msg H].
  destruct (startup_error_leaves_main E st st _ H) as [Hmain Hloop].
  exists msg. repeat split; try assumption. now rewrite Hmain.
Qed.

Lemma missing_section_is_fatal_witness :
  read_yaml_config no_email_section "docker_log_redirect.yaml" = Ret config_without_email
  /\ In "email" ["general"; "docker_container"; "email"; "logging"]
  /\ py_in "email" config_without_email <> Ret true
  /\ exists msg, main no_email_section initial_state = (Raise (ValueError msg), initial_state).
Proof.
  assert (Habsent : py_in "email" config_without_email <> Ret true) by discriminate.
  split; [reflexivity|]. split; [cbn; tauto|]. split; [exact Habsent|].
  destruct (missing_section_is_fatal no_email_section initial_state config_without_email
              "email" eq_refl (or_intror (or_intror (or_introl eq_refl))) Habsent)
    as (msg & _ & Hmain & _).
  now exists msg.
Defined.






(* ===================================================================== *)
(** * The reader thread: what is trimmed, and how it fails *)
(* ===================================================================== *)
Lemma lstrip_leading (leading t : text) :
  forallb isspace leading = true -> lstrip (leading ++ t)%list = lstrip t.
Proof.
  induction leading as [|c leading IH]; intros H; [reflexivity|].
  cbn [forallb] in H. apply andb_true_iff in H as [Hc H].
  cbn [app lstrip]. rewrite Hc. now apply IH.
Qed.

Lemma lstrip_all_space (t : text) : forallb isspace t = true -> lstrip t = [].
Proof.
  intros H. rewrite <- (app_nil_r t). now rewrite lstrip_leading.
Qed.

Lemma lstrip_starts_clean (c : N) (t : text) :
  isspace c = false -> lstrip (c :: t) = c :: t.
Proof. intros H. cbn [lstrip]. now rewrite H. Qed.

(** [strip] removes the white space around a text that has none at its
    ends, and nothing else. *)
Lemma strip_exact (leading core trailing : text) :
  forallb isspace leading = true ->
  forallb isspace trailing = true ->
  no_space_at_ends core = true ->
  strip (leading ++ core ++ trailing)%list = core.
Proof.
  intros Hl Ht Hc. unfold strip, rstrip. rewrite lstrip_leading by exact Hl.
  destruct core as [|c core].
  - cbn [app]. rewrite (lstrip_all_space trailing) by exact Ht. reflexivity.
  - unfold no_space_at_ends in Hc.
    destruct (rev (c :: core)) as [|d back] eqn:Hrev.
    + apply (f_equal (@List.length N)) in Hrev. rewrite length_rev in Hrev. discriminate.
    + apply andb_true_iff in Hc as [Hfirst Hlast].
      apply negb_true_iff in Hfirst. apply negb_true_iff in Hlast.
      change ((c :: core) ++ trailing)%list with (c :: (core ++ trailing))%list.
      rewrite lstrip_starts_clean by exact Hfirst.
      change (c :: (core ++ trailing))%list with ((c :: core) ++ trailing)%list.
      rewrite rev_app_distr, lstrip_leading by now apply forallb_rev.
      rewrite Hrev, lstrip_starts_clean by exact Hlast.
      rewrite <- Hrev. apply rev_involutive.
Qed.

(** X1: of a line the reader forwards exactly what stands between the
    white space at its two ends; a line of white space only, and the empty
    read at the end of a stream, is forwarded as an empty line. *)
Theorem surrounding_whitespace_is_all_that_is_removed (lg : logger) (line : list byte)
    (leading core trailing : text) (st : state) :
  utf_8_decode 0 line = inl (leading ++ core ++ trailing)%list ->
  forallb isspace leading = true ->
  forallb isspace trailing = true ->
  no_space_at_ends core = true ->
  forward_line lg line st = (Ret tt, after st [Log lg INFO core]).
Proof.
  intros Hd Hl Ht Hc. rewrite (forward_line_decoded lg line _ st Hd).
  now rewrite strip_exact.
Qed.

Lemma surrounding_whitespace_is_all_that_is_removed_witness :
  utf_8_decode 0 indented_line = inl ([32; 32] ++ [104; 105] ++ [32; 10])%N%list
  /\ forward_line "web" indented_line initial_state
     = (Ret tt, after initial_state [Log "web" INFO [104; 105]%N])
  /\ forward_line "web" [x20; x0a] initial_state
     = (Ret tt, after initial_state [Log "web" INFO []]).
Proof.
  split; [reflexivity|]. split.
  - exact (surrounding_whitespace_is_all_that_is_removed "web" indented_line
             [32; 32]%N [104; 105]%N [32; 10]%N initial_state
             eq_refl eq_refl eq_refl eq_refl).
  - exact (surrounding_whitespace_is_all_that_is_removed "web" [x20; x0a]
             [32; 10]%N [] [] initial_state eq_refl eq_refl eq_refl eq_refl).
Defined.

(** X3: when the log command cannot be started, the reader raises a
    [ValueError] that names line 55 and carries the message of the cause;
    nothing has been handed to the container's logger. *)
Theorem failed_command_is_reported (E : collaborators) (name : string)
    (lg root : logger) (e : exn) (st : state) :
  Popen E ["docker"; "logs"; "-f"; name] = Raise e ->
  is_Exception e = true ->
  get_docker_log E name lg root st
  = (Raise (ValueError ("The sub-process failed to run. " ++ str_exn e
                        ++ ", Originating error on line 55 in <__main__>")),
     mkState (live st) (trace st ++ reader_starts root name) 55).
Proof.
  intros Hpopen He. unfold get_docker_log.
  rewrite !bind_emit; cbv beta. rewrite after_after.
  unfold try_except, bind at 1, at_line at 1, lift at 1.
  cbn [live trace tb_lineno]. rewrite Hpopen, He. reflexivity.
Qed.

Lemma failed_command_is_reported_witness :
  get_docker_log docker_is_missing "web" "web" "root" initial_state
  = (Raise (ValueError
              "The sub-process failed to run. [Errno 2] No such file or directory: 'docker', Originating error on line 55 in <__main__>"),
     mkState (live initial_state)
       (trace initial_state ++ reader_starts "root" "web") 55)
  /\ logged "web"
       (trace (snd (get_docker_log docker_is_missing "web" "web" "root" initial_state)))
     = [].
Proof.
  split; [|reflexivity].
  exact (failed_command_is_reported docker_is_missing "web" "web" "root" _ initial_state
           eq_refl eq_refl).
Defined.

(** A loop over the reads that raises has forwarded the reads before one
    of them and raised on that one, on line 61: what it raises is what
    [forward_line] raises on that read. *)
Lemma reads_stop_at_the_first_failure (lg : logger) (output : list (list byte)) :
  forall (st st' : state) (cause : exn),
    for_each output (fun read => at_line 61 (forward_line lg read)) st = (Raise cause, st') ->
    tb_lineno st' = 61
    /\ exists before read later,
         output = (before ++ read :: later)%list
         /\ Forall (fun b => exists t, utf_8_decode 0 b = inl t) before
         /\ forall s, forward_line lg read s = (Raise cause, s).
Proof.
  induction output as [|x output IH]; intros st st' cause H; [discriminate|].
  cbn [for_each] in H. unfold bind at 1, at_line at 1 in H.
  destruct (utf_8_decode 0 x) as [t|pos] eqn:Hd.
  - rewrite (forward_line_decoded lg x t st Hd) in H.
    destruct (IH _ _ _ H) as (Hline & before & read & later & -> & Hbefore & Hread).
    split; [exact Hline|]. exists (x :: before), read, later.
    split; [reflexivity|]. split; [|exact Hread].
    constructor; [now exists t | exact Hbefore].
  - rewrite (forward_line_undecodable lg x pos st Hd) in H. injection H as <- <-.
    split; [reflexivity|]. exists [], x, output.
    split; [reflexivity|]. split; [constructor|].
    intros s. exact (forward_line_undecodable lg x pos s Hd).
Qed.

(** X4: every [Exception] that leaves the reader is the [ValueError] of
    line 66 around the error of the statement that failed: with line 55
    the error that [Popen] raised, and with line 61 the error that
    [forward_line] raises on the first read that cannot be decoded, the
    reads before it having been decoded. *)
Theorem reader_fails_with_a_value_error (E : collaborators) (name : string)
    (lg root : logger) (e : exn) (st st' : state) :
  get_docker_log E name lg root st = (Raise e, st') ->
  is_Exception e = true ->
  exists cause line,
    e = ValueError ("The sub-process failed to run. " ++ str_exn cause
                    ++ ", Originating error on line " ++ line ++ " in <__main__>")
    /\ ((line = "55" /\ Popen E ["docker"; "logs"; "-f"; name] = Raise cause)
        \/ (line = "61"
            /\ exists before read later,
                 Popen E ["docker"; "logs"; "-f"; name] = Ret (before ++ read :: later)%list
                 /\ Forall (fun b => exists t, utf_8_decode 0 b = inl t) before
                 /\ forall s, forward_line lg read s = (Raise cause, s))).
Proof.
  unfold get_docker_log. rewrite !bind_emit; cbv beta.
  unfold try_except, bind at 1, at_line at 1, lift at 1.
  destruct (Popen E ["docker"; "logs"; "-f"; name]) as [output|e0].
  - unfold bind at 1.
    match goal with |- context [for_each output ?f ?s] =>
      destruct (for_each output f s) as [[[]|e0] s0] eqn:Hloop end.
    + unfold emit. discriminate.
    + apply reads_stop_at_the_first_failure in Hloop
        as (Hline & before & read & later & -> & Hbefore & Hread).
      destruct (is_Exception e0) eqn:He0.
      * unfold bind, exc_lineno, raise. rewrite Hline.
        intros [= <- _] _. exists e0, "61". split; [reflexivity|].
        right. split; [reflexivity|]. now exists before, read, later.
      * intros [= <- _] He. congruence.
  - cbn [live trace tb_lineno]. destruct (is_Exception e0) eqn:He0.
    + unfold bind, exc_lineno, raise. cbn [tb_lineno].
      intros [= <- _] _. exists e0, "55". split; [reflexivity|]. left. now split.
    + intros [= <- _] He. congruence.
Qed.

Lemma reader_fails_with_a_value_error_witness :
  exists cause line,
    ValueError "The sub-process failed to run. 'utf-8' codec can't decode byte 0xff in position 0: invalid start byte, Originating error on line 61 in <__main__>"
    = ValueError ("The sub-process failed to run. " ++ str_exn cause
                  ++ ", Originating error on line " ++ line ++ " in <__main__>")
    /\ ((line = "55" /\ Popen garbled_stream ["docker"; "logs"; "-f"; "web"] = Raise cause)
        \/ (line = "61"
            /\ exists before read later,
                 Popen garbled_stream ["docker"; "logs"; "-f"; "web"]
                 = Ret (before ++ read :: later)%list
                 /\ Forall (fun b => exists t, utf_8_decode 0 b = inl t) before
                 /\ forall s, forward_line "web" read s = (Raise cause, s))).
Proof.
  exact (reader_fails_with_a_value_error garbled_stream "web" "web" "root" _
           initial_state _ eq_refl eq_refl).
Defined.

(* ===================================================================== *)
(** * The supervision pass: what it returns and what it starts *)
(* ===================================================================== *)
(** A turn that returns has either found the container active and passed
    it over, or found it inactive, made the start call, which returned,
    and added one entry, under the normalized name, with the status that
    the registry's answer after the call gives. *)
Lemma turn_returns (E : collaborators) (root : logger) (name : string) (lg : logger)
    (tracker tracker' : list (list status_entry)) (st st' : state) :
  supervise_container E root (name, lg) tracker st = (Ret tracker', st') ->
  (reported_active name (live st) = true
   /\ tracker' = tracker
   /\ live st' = live st
   /\ spawned (trace st') = spawned (trace st))
  \/ (reported_active name (live st) = false
      /\ live st' = snd (start_call E name lg (live st))
      /\ tracker'
         = (tracker
            ++ [[mkEntry (if reported_active name (live st') then Started else Failed)
                   (replace " " "_" name)]])%list
      /\ spawned (trace st')
         = (spawned (trace st) ++ [(replace " " "_" name ++ "_thread")%string])%list).
Proof.
  intros Hturn. destruct (reported_active name (live st)) eqn:Hact.
  - rewrite turn_skipped in Hturn by exact Hact. injection Hturn as <- <-.
    left. split; [reflexivity|]. split; [reflexivity|]. split; [reflexivity|].
    unfold after; cbn [trace]. rewrite spawned_app. cbn. now rewrite app_nil_r.
  - right. split; [reflexivity|]. unfold start_call.
    destruct (start_function_thread E (replace " " "_" name) lg
                (replace " " "_" name ++ "_thread") (live st))
      as [[[]|e] ts'] eqn:Hstart.
    + destruct (reported_active name ts') eqn:Hup.
      * rewrite (turn_started E root name lg tracker st ts' Hact Hstart Hup) in Hturn.
        injection Hturn as <- <-. cbn [live snd trace]. rewrite Hup.
        split; [reflexivity|]. split; [reflexivity|]. now rewrite spawned_app.
      * rewrite (turn_failed E root name lg tracker st ts' Hact Hstart Hup) in Hturn.
        injection Hturn as <- <-. cbn [live snd trace]. rewrite Hup.
        split; [reflexivity|]. split; [reflexivity|]. now rewrite spawned_app.
    + exfalso. revert Hturn.
      unfold supervise_container, call_start_function_thread; step_monad.
      unfold reported_active, watcher_name in Hact. rewrite Hact; step_monad.
      rewrite Hstart; step_monad. destruct e; discriminate.
Qed.

Lemma thread_names_of_app (a b : list (list status_entry)) :
  thread_names_of (a ++ b) = (thread_names_of a ++ thread_names_of b)%list.
Proof. unfold thread_names_of. apply flat_map_app. Qed.

(** The turns of a pass that returns: the entries are those that the
    registry checks give, the threads alive at the end are those that the
    start calls leave, and the start calls are those of the entries. *)
Lemma pass_steps_return (E : collaborators) (root : logger)
    (containers : list (string * logger)) :
  forall (tracker results : list (list status_entry)) (st st' : state),
    supervise_all E root containers tracker st = (Ret results, st') ->
    results = (tracker ++ reported containers (findings E containers (live st)))%list
    /\ live st' = threads_after E containers (live st)
    /\ spawned (trace st')
       = (spawned (trace st)
          ++ thread_names_of (reported containers (findings E containers (live st))))%list.
Proof.
  induction containers as [|[name lg] rest IH]; intros tracker results st st' H.
  - cbn in H. injection H as <- <-. cbn. now rewrite !app_nil_r.
  - rewrite supervise_all_cons in H.
    destruct (supervise_container E root (name, lg) tracker st) as [[tracker1|e] st1] eqn:Hturn;
      [|discriminate].
    destruct (IH _ _ _ _ H) as (-> & Hlive & Hsp).
    cbn [findings threads_after reported].
    destruct (turn_returns _ _ _ _ _ _ _ _ Hturn)
      as [(Hact & -> & Hsame & Hkept)|(Hact & Hnew & -> & Hadded)]; rewrite Hact.
    + cbn [reported]. rewrite <- Hsame. split; [reflexivity|]. split; [exact Hlive|].
      now rewrite Hsp, Hkept.
    + cbn zeta. cbn [reported fst]. rewrite <- Hnew.
      split; [now rewrite <- app_assoc|]. split; [exact Hlive|].
      rewrite Hsp, Hadded, <- app_assoc. reflexivity.
Qed.

Lemma reported_length (containers : list (string * logger)) :
  forall choices,
    List.length (reported containers choices) <= List.length containers.
Proof.
  induction containers as [|d ds IH]; intros [|[s|] cs]; cbn [reported List.length];
    try lia; specialize (IH cs); lia.
Qed.

(** X5: the result list of a pass that returns follows the configured
    containers in order, and the two registry checks of each turn decide
    it: a container contributes no entry exactly when the check of line
    105 finds its thread name in the rendering of the threads alive at its
    turn; otherwise it contributes one entry, under the normalized name,
    which is [Started] exactly when the check of line 124 finds the name
    after the start call.  The threads alive at the end are those the
    start calls have left. *)
Theorem pass_reports_in_configured_order (E : collaborators) (root : logger)
    (containers : list (string * logger)) (results : list (list status_entry))
    (st st' : state) :
  create_docker_log_threads E containers root st = (Ret results, st') ->
  results = reported containers (findings E containers (live st))
  /\ live st' = threads_after E containers (live st)
  /\ List.length results <= List.length containers.
Proof.
  rewrite create_docker_log_threads_unfold. intros H.
  destruct (pass_steps_return _ _ _ _ _ _ _ H) as (-> & Hlive & _).
  cbn [app live after] in *. split; [reflexivity|]. split; [exact Hlive|].
  apply reported_length.
Qed.

Lemma pass_reports_in_configured_order_witness :
  [[mkEntry Started "web"]; [mkEntry Failed "db"]]
  = reported [("web", "web"); ("db", "db"); ("web", "again")]
      (findings db_ends_at_once [("web", "web"); ("db", "db"); ("web", "again")]
         (live initial_state))
  /\ live (snd (create_docker_log_threads db_ends_at_once
                  [("web", "web"); ("db", "db"); ("web", "again")] "root" initial_state))
     = threads_after db_ends_at_once [("web", "web"); ("db", "db"); ("web", "again")]
         (live initial_state)
  /\ List.length [[mkEntry Started "web"]; [mkEntry Failed "db"]]
     <= List.length [("web", "web"); ("db", "db"); ("web", "again")].
Proof.
  refine (pass_reports_in_configured_order db_ends_at_once "root"
            [("web", "web"); ("db", "db"); ("web", "again")] _ initial_state _ _).
  vm_compute. reflexivity.
Defined.

(** X6: a pass that returns has called [start_function_thread] once for
    every entry it reports, in the order of the entries and with the
    entry's name followed by [_thread], and for no other container. *)
Theorem one_start_call_per_entry (E : collaborators) (root : logger)
    (containers : list (string * logger)) (results : list (list status_entry))
    (st st' : state) :
  create_docker_log_threads E containers root st = (Ret results, st') ->
  spawned (trace st') = (spawned (trace st) ++ thread_names_of results)%list.
Proof.
  rewrite create_docker_log_threads_unfold. intros H.
  destruct (pass_steps_return _ _ _ _ _ _ _ H) as (-> & _ & Hsp).
  rewrite Hsp. unfold after; cbn [trace app]. rewrite spawned_app. cbn.
  now rewrite app_nil_r.
Qed.

Lemma one_start_call_per_entry_witness :
  spawned (trace (snd (create_docker_log_threads db_ends_at_once
                         [("web", "web"); ("db", "db"); ("web", "again")] "root"
                         initial_state)))
  = ["web_thread"; "db_thread"].
Proof.
  refine (one_start_call_per_entry db_ends_at_once "root"
            [("web", "web"); ("db", "db"); ("web", "again")]
            [[mkEntry Started "web"]; [mkEntry Failed "db"]] initial_state _ _).
  vm_compute. reflexivity.
Defined.

(** A turn raises only because its start call did: an exception of the
    start call comes out wrapped in a [ValueError]. *)
Lemma turn_raised (E : collaborators) (root : logger) (name : string) (lg : logger)
    (tracker : list (list status_entry)) (st st' : state) (e : exn) :
  supervise_container E root (name, lg) tracker st = (Raise e, st') ->
  is_Exception e = true ->
  exists cause,
    reported_active name (live st) = false
    /\ start_call E name lg (live st) = (Raise cause, live st')
    /\ e = ValueError (str_exn cause ++ ", Error on line 113 in <__main__>")
    /\ trace st'
       = (trace st ++ [being_created root (replace " " "_" name);
                       starting root (replace " " "_" name);
                       Spawn (replace " " "_" name ++ "_thread")
                         (replace " " "_" name) lg])%list.
Proof.
  intros Hturn He. destruct (reported_active name (live st)) eqn:Hact.
  { rewrite turn_skipped in Hturn by exact Hact. discriminate. }
  unfold start_call.
  destruct (start_function_thread E (replace " " "_" name) lg
              (replace " " "_" name ++ "_thread") (live st))
    as [[[]|e0] ts'] eqn:Hstart.
  - destruct (reported_active name ts') eqn:Hup.
    + rewrite (turn_started E root name lg tracker st ts' Hact Hstart Hup) in Hturn.
      discriminate.
    + rewrite (turn_failed E root name lg tracker st ts' Hact Hstart Hup) in Hturn.
      discriminate.
  - destruct (is_Exception e0) eqn:He0.
    + rewrite (turn_raises E root name lg tracker st e0 ts' Hact Hstart He0) in Hturn.
      injection Hturn as <- <-. exists e0. cbn [live trace]. now repeat split.
    + exfalso. revert Hturn.
      unfold supervise_container, call_start_function_thread; step_monad.
      unfold reported_active, watcher_name in Hact. rewrite Hact; step_monad.
      rewrite Hstart; step_monad. rewrite He0. intros [= <- _]. congruence.
Qed.

(** X7: an [Exception] that leaves the pass is the [ValueError] of lines
    115 to 118 around the error of a start call that raised: the call for
    one of the configured containers, found inactive at its turn, with the
    threads that the turns before it had left; the message is that of the
    call's error followed by line 113, and the call is the last thing the
    pass did. *)
Theorem pass_fails_with_a_value_error (E : collaborators) (root : logger)
    (containers : list (string * logger)) (e : exn) (st st' : state) :
  create_docker_log_threads E containers root st = (Raise e, st') ->
  is_Exception e = true ->
  exists earlier name lg later cause before,
    containers = (earlier ++ (name, lg) :: later)%list
    /\ reported_active name (threads_after E earlier (live st)) = false
    /\ start_call E name lg (threads_after E earlier (live st)) = (Raise cause, live st')
    /\ e = ValueError (str_exn cause ++ ", Error on line 113 in <__main__>")
    /\ trace st'
       = (before ++ [Spawn (replace " " "_" name ++ "_thread") (replace " " "_" name) lg])%list.
Proof.
  rewrite create_docker_log_threads_unfold.
  change (live st)
    with (live (after st [Log root DEBUG "Creating individual threads for each docker container"])).
  generalize (after st [Log root DEBUG "Creating individual threads for each docker container"]).
  generalize (@nil (list status_entry)).
  induction containers as [|[name lg] rest IH]; intros tracker s H He; [discriminate|].
  rewrite supervise_all_cons in H.
  destruct (supervise_container E root (name, lg) tracker s) as [[tracker1|e1] s1] eqn:Hturn.
  - destruct (IH _ _ H He)
      as (earlier & n & l & later & cause & before & -> & Hidle & Hcall & Hmsg & Htrace).
    exists ((name, lg) :: earlier), n, l, later, cause, before.
    split; [reflexivity|]. cbn [threads_after].
    destruct (turn_returns _ _ _ _ _ _ _ _ Hturn)
      as [(Hact & _ & Hsame & _)|(Hact & Hnew & _)]; rewrite Hact.
    + rewrite <- Hsame. now repeat split.
    + rewrite <- Hnew. now repeat split.
  - injection H as <- <-.
    destruct (turn_raised _ _ _ _ _ _ _ _ Hturn He) as (cause & Hidle & Hcall & -> & Htrace).
    exists [], name, lg, rest, cause. eexists. cbn [app threads_after].
    split; [reflexivity|]. split; [exact Hidle|]. split; [exact Hcall|].
    split; [reflexivity|]. rewrite Htrace.
    change [being_created root (replace " " "_" name); starting root (replace " " "_" name);
            Spawn (replace " " "_" name ++ "_thread") (replace " " "_" name) lg]
      with ([being_created root (replace " " "_" name); starting root (replace " " "_" name)]
            ++ [Spawn (replace " " "_" name ++ "_thread") (replace " " "_" name) lg])%list.
    now rewrite app_assoc.
Qed.

Lemma pass_fails_with_a_value_error_witness :
  exists earlier name lg later cause before,
    [("web", "web"); ("db", "db"); ("cache", "cache")] = (earlier ++ (name, lg) :: later)%list
    /\ reported_active name (threads_after db_cannot_start earlier (live initial_state)) = false
    /\ start_call db_cannot_start name lg
         (threads_after db_cannot_start earlier (live initial_state))
       = (Raise cause,
          live (snd (create_docker_log_threads db_cannot_start
                       [("web", "web"); ("db", "db"); ("cache", "cache")] "root"
                       initial_state)))
    /\ ValueError "can't start new thread, Error on line 113 in <__main__>"
       = ValueError (str_exn cause ++ ", Error on line 113 in <__main__>")
    /\ trace (snd (create_docker_log_threads db_cannot_start
                     [("web", "web"); ("db", "db"); ("cache", "cache")] "root"
                     initial_state))
       = (before ++ [Spawn (replace " " "_" name ++ "_thread") (replace " " "_" name) lg])%list.
Proof.
  exact (pass_fails_with_a_value_error db_cannot_start "root"
           [("web", "web"); ("db", "db"); ("cache", "cache")] _ initial_state _
           eq_refl eq_refl).
Defined.






(* ===================================================================== *)
(** * Watcher names that coincide *)
(* ===================================================================== *)
Lemma length_append (a b : string) :
  String.length (a ++ b) = String.length a + String.length b.
Proof. induction a as [|x a IH]; cbn; [reflexivity | now rewrite IH]. Qed.

Lemma append_cancel_r (a b c : string) : a ++ c = b ++ c -> a = b.
Proof.
  revert b. induction a as [|x a IH]; intros [|y b] H.
  - reflexivity.
  - apply (f_equal String.length) in H. cbn in H. rewrite length_append in H. lia.
  - apply (f_equal String.length) in H. cbn in H. rewrite length_append in H. lia.
  - cbn in H. injection H as <- H. f_equal. now apply IH.
Qed.

Lemma underscored_alike (a b : string) :
  underscored a = underscored b <-> alike a b = true.
Proof.
  revert b. induction a as [|x a IH]; intros [|y b]; cbn [underscored alike];
    try (split; [discriminate | discriminate]); [tauto|].
  rewrite andb_true_iff, <- IH. unfold space_or_underscore.
  split.
  - intros [= Hhead Htail]. split; [|exact Htail].
    destruct (Ascii.eqb_spec x " ") as [->|Hx], (Ascii.eqb_spec y " ") as [->|Hy];
      cbn; try reflexivity.
    + subst y. reflexivity.
    + subst x. now rewrite Ascii.eqb_refl, orb_true_r.
    + subst y. now rewrite Ascii.eqb_refl.
  - intros [Hhead ->]. f_equal.
    apply orb_true_iff in Hhead as [Hsame|Hgaps].
    + apply Ascii.eqb_eq in Hsame. now subst y.
    + apply andb_true_iff in Hgaps as [Hx Hy].
      apply orb_true_iff in Hx as [Hx|Hx], Hy as [Hy|Hy];
        apply Ascii.eqb_eq in Hx, Hy; subst x y; reflexivity.
Qed.

(** X10: two container names get the same watcher name exactly when they
    have the same length and differ only where one has a space and the
    other a space or an underscore; any other difference between two names
    is kept by the derivation. *)
Theorem watcher_names_coincide_up_to_spaces (a b : string) :
  replace " " "_" a ++ "_thread" = replace " " "_" b ++ "_thread" <-> alike a b = true.
Proof.
  rewrite !replace_space_underscored, <- underscored_alike.
  split; [apply append_cancel_r | now intros ->].
Qed.

(* ===================================================================== *)
(** * The loggers of the containers *)
(* ===================================================================== *)
Section ContainerLoggers.

Variables (E : collaborators) (path : string) (size : Z).

Lemma logger_is_added (entry : string * yaml) (pair : string * logger)
    (loggers : list (string * logger)) (st : state) :
  well_formed_entry E path size entry pair ->
  create_docker_container_logger E path size entry loggers st
  = (Ret (loggers ++ [pair])%list, st).
Proof.
  intros (log_name & Hname & Hlog & Hcreate).
  unfold create_docker_container_logger; step_monad.
  rewrite Hname, Hlog. cbn [fst snd yaml_value_validation_str]. step_monad.
  rewrite Hcreate. now destruct pair.
Qed.

Lemma loggers_are_added (entries : list (string * yaml)) (pairs : list (string * logger)) :
  Forall2 (well_formed_entry E path size) entries pairs ->
  forall (more : list (string * yaml)) (loggers : list (string * logger)) (st : state),
    create_docker_container_loggers_from E path size (entries ++ more) loggers st
    = create_docker_container_loggers_from E path size more (loggers ++ pairs) st.
Proof.
  induction 1 as [|entry pair entries pairs Hwf _ IH]; intros more loggers st.
  - cbn [app]. now rewrite app_nil_r.
  - cbn [app create_docker_container_loggers_from]. unfold bind at 1.
    rewrite (logger_is_added entry pair loggers st Hwf).
    rewrite IH, <- app_assoc. reflexivity.
Qed.

(** X11: when every container entry of the configuration is well formed
    and its logger can be created, there is one logger per entry, in the
    order of the configuration, each paired with the container's name;
    nothing is logged and no state is touched. *)
Theorem loggers_follow_the_configuration (cfg : yaml) (entries : list (string * yaml))
    (pairs : list (string * logger)) (st : state) :
  dict_get cfg "docker_container" YNone = Ret (YDict entries) ->
  Forall2 (well_formed_entry E path size) entries pairs ->
  create_docker_container_loggers E cfg path size st = (Ret pairs, st).
Proof.
  intros Hsection Hwf. unfold create_docker_container_loggers.
  unfold bind at 1, lift at 1. rewrite Hsection.
  unfold bind at 1, lift at 1. cbn [dict_items].
  rewrite <- (app_nil_r entries). now rewrite (loggers_are_added entries pairs Hwf).
Qed.

(** X12: an entry of the container section that is not a mapping ends the
    creation of the loggers with the [ValueError] of line 174, which names
    line 170; the entries after it are not looked at. *)
Theorem entry_that_is_no_mapping_is_fatal (cfg : yaml)
    (good rest : list (string * yaml)) (entry : string * yaml)
    (pairs : list (string * logger)) (st : state) :
  dict_get cfg "docker_container" YNone = Ret (YDict (good ++ entry :: rest)) ->
  Forall2 (well_formed_entry E path size) good pairs ->
  (forall items, snd entry <> YDict items) ->
  create_docker_container_loggers E cfg path size st
  = (Raise (ValueError
              "The YAML software entry section is missing the required keys. Please verify you have set all required keys and try again, Originating error on line 170 in <__main__>"),
     mkState (live st) (trace st) 170).
Proof.
  intros Hsection Hwf Hentry. unfold create_docker_container_loggers.
  unfold bind at 1, lift at 1. rewrite Hsection.
  unfold bind at 1, lift at 1. cbn [dict_items].
  rewrite (loggers_are_added good pairs Hwf).
  cbn [create_docker_container_loggers_from]. unfold bind at 1.
  unfold create_docker_container_logger; step_monad.
  destruct (snd entry) as [| | | | |items] eqn:Hsnd;
    try reflexivity.
  now elim (Hentry items).
Qed.

(** X13: when the logger of a container cannot be created, the creation of
    the loggers ends with the [ValueError] of line 208, which names the
    container and line 202 and carries the message of the cause. *)
Theorem failed_logger_is_fatal (cfg : yaml)
    (good rest : list (string * yaml)) (entry : string * yaml)
    (pairs : list (string * logger)) (name log_name : string) (e : exn) (st : state) :
  dict_get cfg "docker_container" YNone = Ret (YDict (good ++ entry :: rest)) ->
  Forall2 (well_formed_entry E path size) good pairs ->
  dict_get (snd entry) "container_name" YNone = Ret (YStr name) ->
  dict_get (snd entry) "log_name" YNone = Ret (YStr log_name) ->
  create_logger E path name log_name size "INFO" "INFO" 4 (YStr "%(message)s") 2 = Raise e ->
  is_Exception e = true ->
  create_docker_container_loggers E cfg path size st
  = (Raise (ValueError
              ("The logger creation for the docker container (" ++ name
               ++ ") failed to create. " ++ str_exn e
               ++ ", Originating error on line 202 in <__main__>")),
     mkState (live st) (trace st) 202).
Proof.
  intros Hsection Hwf Hname Hlog Hcreate He. unfold create_docker_container_loggers.
  unfold bind at 1, lift at 1. rewrite Hsection.
  unfold bind at 1, lift at 1. cbn [dict_items].
  rewrite (loggers_are_added good pairs Hwf).
  cbn [create_docker_container_loggers_from]. unfold bind at 1.
  unfold create_docker_container_logger; step_monad.
  rewrite Hname, Hlog. cbn [fst snd yaml_value_validation_str]. step_monad.
  rewrite Hcreate. step_monad. now rewrite He.
Qed.

End ContainerLoggers.

Lemma sample_entries_are_well_formed (E : collaborators) (path : string) (size : Z)
    (containers : list (string * string)) :
  (forall name log_name,
      create_logger E path name log_name size "INFO" "INFO" 4 (YStr "%(message)s") 2
      = Ret name) ->
  Forall2 (well_formed_entry E path size)
    (map (fun c => (fst c, YDict [("container_name", YStr (fst c));
                                   ("log_name", YStr (snd c))])) containers)
    (map (fun c => (fst c, fst c)) containers).
Proof.
  intros Hcreate. induction containers as [|c containers IH]; constructor; [|exact IH].
  exists (snd c). cbn. repeat split. apply Hcreate.
Qed.

Lemma loggers_follow_the_configuration_witness :
  create_docker_container_loggers all_succeed
    (sample_config [("web", "web.log"); ("my db", "db.log")] true true)
    "/var/log/docker" 1000000 initial_state
  = (Ret [("web", "web"); ("my db", "my db")], initial_state).
Proof.
  refine (loggers_follow_the_configuration all_succeed "/var/log/docker" 1000000
            (sample_config [("web", "web.log"); ("my db", "db.log")] true true)
            _ _ initial_state eq_refl _).
  exact (sample_entries_are_well_formed all_succeed "/var/log/docker" 1000000
           [("web", "web.log"); ("my db", "db.log")] (fun _ _ => eq_refl)).
Defined.

Lemma entry_that_is_no_mapping_is_fatal_witness :
  fst (create_docker_container_loggers all_succeed second_entry_is_a_string
         "/var/log/docker" 1000000 initial_state)
  = Raise (ValueError
             "The YAML software entry section is missing the required keys. Please verify you have set all required keys and try again, Originating error on line 170 in <__main__>").
Proof.
  refine (f_equal fst
            (entry_that_is_no_mapping_is_fatal all_succeed "/var/log/docker" 1000000
               second_entry_is_a_string
               [("first", YDict [("container_name", YStr "web"); ("log_name", YStr "web.log")])]
               [("third", YDict [("container_name", YStr "cache");
                                 ("log_name", YStr "cache.log")])]
               ("second", YStr "db") [("web", "web")] initial_state eq_refl _ _)).
  - constructor; [|constructor]. exists "web.log". now repeat split.
  - intros items. discriminate.
Defined.

Lemma failed_logger_is_fatal_witness :
  fst (create_docker_container_loggers db_log_is_locked
         (sample_config [("web", "web.log"); ("db", "db.log"); ("cache", "cache.log")]
            true true)
         "/var/log/docker" 1000000 initial_state)
  = Raise (ValueError
             "The logger creation for the docker container (db) failed to create. [Errno 13] Permission denied, Originating error on line 202 in <__main__>").
Proof.
  refine (f_equal fst
            (failed_logger_is_fatal db_log_is_locked "/var/log/docker" 1000000
               (sample_config [("web", "web.log"); ("db", "db.log"); ("cache", "cache.log")]
                  true true)
               [("web", YDict [("container_name", YStr "web"); ("log_name", YStr "web.log")])]
               [("cache", YDict [("container_name", YStr "cache");
                                 ("log_name", YStr "cache.log")])]
               ("db", YDict [("container_name", YStr "db"); ("log_name", YStr "db.log")])
               [("web", "web")] "db" "db.log" _ initial_state
               eq_refl _ eq_refl eq_refl eq_refl eq_refl)).
  constructor; [|constructor]. exists "web.log". now repeat split.
Defined.

(* ===================================================================== *)
(** * Startup: its errors and its effects *)
(* ===================================================================== *)
(** The handler of [populate_startup_variables] raises a [ValueError]
    with the message its three clauses give. *)
Lemma startup_handler_run {A} (cause : exn) (st : state) :
  @startup_handler A cause st = (Raise (ValueError (startup_message cause)), st).
Proof.
  unfold startup_handler, startup_message.
  destruct (is_NameError cause); [reflexivity|].
  destruct (is_KeyError cause); reflexivity.
Qed.

(** X14: an [Exception] that leaves [populate_startup_variables] is a
    [ValueError] made of the error that its [try] block raised: the
    message of that error, with the prefix and the line of the clause
    that catches it.  [except NameError] (line 408) also catches an
    [UnboundLocalError]; an error that neither derives from [NameError]
    nor from [KeyError] (line 411) is worded by line 414. *)
Theorem startup_fails_with_a_value_error (E : collaborators) (e : exn) (st st' : state) :
  populate_startup_variables E st = (Raise e, st') ->
  is_Exception e = true ->
  exists cause,
    startup_body E st = (Raise cause, st')
    /\ is_Exception cause = true
    /\ e = ValueError (startup_message cause).
Proof.
  unfold populate_startup_variables, try_except.
  destruct (startup_body E st) as [[sv|cause] s] eqn:Hbody; [discriminate|].
  destruct (is_Exception cause) eqn:Hcause.
  - rewrite startup_handler_run. intros [= <- <-] _. now exists cause.
  - intros [= <- _] He. congruence.
Qed.

Lemma startup_fails_with_a_value_error_witness :
  exists cause,
    startup_body reader_with_unbound_local initial_state = (Raise cause, initial_state)
    /\ is_Exception cause = true
    /\ ValueError
         "NameError: cannot access local variable 'config' where it is not associated with a value, Error on line408 in <__main__>"
       = ValueError (startup_message cause).
Proof.
  exact (startup_fails_with_a_value_error reader_with_unbound_local _ initial_state _
           eq_refl eq_refl).
Defined.

Section Effects.

Variable Q : event -> Prop.

Lemma emits_ret {A} (a : A) : only_emits Q (ret a).
Proof. intros st. exists []. cbn. now rewrite app_nil_r. Qed.

Lemma emits_raise {A} (e : exn) : only_emits Q (@raise A e).
Proof. intros st. exists []. cbn. now rewrite app_nil_r. Qed.

Lemma emits_lift {A} (r : outcome A) : only_emits Q (lift r).
Proof. intros st. exists []. cbn. now rewrite app_nil_r. Qed.

Lemma emits_exc_lineno : only_emits Q exc_lineno.
Proof. intros st. exists []. cbn. now rewrite app_nil_r. Qed.

Lemma emits_emit (ev : event) : Q ev -> only_emits Q (emit ev).
Proof. intros H st. exists [ev]. cbn. split; [reflexivity | now constructor]. Qed.

Lemma emits_bind {A B} (m : M A) (k : A -> M B) :
  only_emits Q m -> (forall a, only_emits Q (k a)) -> only_emits Q (bind m k).
Proof.
  intros Hm Hk st. unfold bind. destruct (Hm st) as (evs & Ht & Hq).
  destruct (m st) as [[a|e] st']; cbn [snd] in *.
  - destruct (Hk a st') as (evs' & Ht' & Hq'). exists (evs ++ evs')%list.
    rewrite Ht', Ht, app_assoc. split; [reflexivity | now apply Forall_app].
  - now exists evs.
Qed.

Lemma emits_try_except {A} (m : M A) (caught : exn -> bool) (handler : exn -> M A) :
  only_emits Q m -> (forall e, only_emits Q (handler e)) ->
  only_emits Q (try_except m caught handler).
Proof.
  intros Hm Hh st. unfold try_except. destruct (Hm st) as (evs & Ht & Hq).
  destruct (m st) as [[a|e] st']; cbn [snd] in *; [now exists evs|].
  destruct (caught e); [|now exists evs].
  destruct (Hh e st') as (evs' & Ht' & Hq'). exists (evs ++ evs')%list.
  rewrite Ht', Ht, app_assoc. split; [reflexivity | now apply Forall_app].
Qed.

Lemma emits_at_line {A} (line : nat) (m : M A) :
  only_emits Q m -> only_emits Q (at_line line m).
Proof.
  intros Hm st. unfold at_line. destruct (Hm st) as (evs & Ht & Hq).
  destruct (m st) as [[a|e] st']; now exists evs.
Qed.

End Effects.

Create HintDb effects.
#[local] Hint Resolve emits_ret emits_raise emits_lift emits_exc_lineno : effects.

(** Goes through a computation built from the monad's operations, as
    [keep_threads] does, for the events it emits. *)
Ltac follow_effects :=
  repeat first
    [ progress (intros; cbv zeta)
    | solve [auto 1 with effects]
    | apply emits_bind
    | apply emits_try_except
    | apply emits_at_line
    | match goal with
      | |- only_emits _ (if ?b then _ else _) => destruct b
      | |- only_emits _ (match ?v with _ => _ end) => destruct v
      end ].

Section StartupEffects.

Variable E : collaborators.

Let Q := creates_missing_directory E.

Lemma emits_validation_str (key : string) (v : yaml) :
  only_emits Q (yaml_value_validation_str key v).
Proof. unfold yaml_value_validation_str, validation_error. follow_effects. Qed.

Lemma emits_validation_bool (key : string) (v : yaml) :
  only_emits Q (yaml_value_validation_bool key v).
Proof. unfold yaml_value_validation_bool, validation_error. follow_effects. Qed.

Lemma emits_validation_int (key : string) (v : yaml) :
  only_emits Q (yaml_value_validation_int key v).
Proof. unfold yaml_value_validation_int, validation_error. follow_effects. Qed.

Lemma emits_get_setting (cfg : yaml) (section key : string) :
  only_emits Q (get_setting cfg section key).
Proof. unfold get_setting. follow_effects. Qed.

Lemma emits_require_root_key (cfg : yaml) (key shown : string) (line : nat) :
  only_emits Q (require_root_key cfg key shown line).
Proof. unfold require_root_key. follow_effects. Qed.

Lemma emits_startup_handler {A} (e : exn) : only_emits Q (@startup_handler A e).
Proof. unfold startup_handler. follow_effects. Qed.

Lemma emits_log_directory (path : string) :
  only_emits Q (if negb (os_path_exists E path) then call_os_makedirs E path else ret tt).
Proof.
  destruct (os_path_exists E path) eqn:Hexists; cbn [negb]; [apply emits_ret|].
  unfold call_os_makedirs. apply emits_bind; [|intros _; apply emits_lift].
  apply emits_emit. now exists path.
Qed.

Hint Resolve emits_validation_str emits_validation_bool emits_validation_int
  emits_get_setting emits_require_root_key emits_startup_handler
  emits_log_directory : effects.

Lemma emits_container_logger (path : string) (size : Z) (entry : string * yaml)
    (loggers : list (string * logger)) :
  only_emits Q (create_docker_container_logger E path size entry loggers).
Proof. unfold create_docker_container_logger. follow_effects. Qed.

Lemma emits_container_loggers_from (path : string) (size : Z)
    (entries : list (string * yaml)) :
  forall loggers,
    only_emits Q (create_docker_container_loggers_from E path size entries loggers).
Proof.
  induction entries as [|entry rest IH]; intros loggers;
    cbn [create_docker_container_loggers_from].
  - apply emits_ret.
  - apply emits_bind; [apply emits_container_logger | intros ?; apply IH].
Qed.

Hint Resolve emits_container_loggers_from : effects.

Lemma emits_container_loggers (cfg : yaml) (path : string) (size : Z) :
  only_emits Q (create_docker_container_loggers E cfg path size).
Proof. unfold create_docker_container_loggers. follow_effects. Qed.

Hint Resolve emits_container_loggers : effects.

Lemma emits_populate_startup_variables : only_emits Q (populate_startup_variables E).
Proof. unfold populate_startup_variables, startup_body. follow_effects. Qed.

End StartupEffects.

Lemma directories_are_no_starts (E : collaborators) (evs : list event) :
  Forall (creates_missing_directory E) evs ->
  spawned evs = [] /\ emailed evs = [] /\ forall lg, logged lg evs = [].
Proof.
  induction 1 as [|ev evs (path & -> & _) _ (Hs & Hm & Hl)]; [now repeat split|].
  cbn [spawned emailed logged]. now repeat split.
Qed.

(** X15: whether it returns or raises, [populate_startup_variables] starts
    and ends no thread, writes to no logger and sends no mail; all it does
    to the outside is to create the log directory, and only when that does
    not exist. *)
Theorem startup_only_creates_the_log_directory (E : collaborators) (st : state) :
  live (snd (populate_startup_variables E st)) = live st
  /\ exists created,
       trace (snd (populate_startup_variables E st)) = (trace st ++ created)%list
       /\ Forall (creates_missing_directory E) created
       /\ spawned created = []
       /\ emailed created = []
       /\ forall lg, logged lg created = [].
Proof.
  split.
  - exact (preserves_populate_startup_variables (fun ts => ts = live st) E st eq_refl).
  - destruct (emits_populate_startup_variables E st) as (created & Htrace & Hq).
    exists created. split; [exact Htrace|]. split; [exact Hq|].
    exact (directories_are_no_starts E created Hq).
Qed.

(* ===================================================================== *)
(** * Startup: what it returns *)
(* ===================================================================== *)
Lemma bind_returns {A B} (m : M A) (k : A -> M B) (st st' : state) (b : B) :
  bind m k st = (Ret b, st') ->
  exists a s, m st = (Ret a, s) /\ k a s = (Ret b, st').
Proof.
  unfold bind. destruct (m st) as [[a|e] s]; [|discriminate].
  intros H. now exists a, s.
Qed.

Section Quiet.

Lemma quiet_ret {A} (a : A) : returns_quietly (ret a).
Proof. intros st b st' [= _ <-]. reflexivity. Qed.

Lemma quiet_raise {A} (e : exn) : returns_quietly (@raise A e).
Proof. intros st b st' H. discriminate. Qed.

Lemma quiet_lift {A} (r : outcome A) : returns_quietly (lift r).
Proof. intros st b st' [= _ <-]. reflexivity. Qed.

Lemma quiet_exc_lineno : returns_quietly exc_lineno.
Proof. intros st b st' [= _ <-]. reflexivity. Qed.

Lemma quiet_bind {A B} (m : M A) (k : A -> M B) :
  returns_quietly m -> (forall a, returns_quietly (k a)) -> returns_quietly (bind m k).
Proof.
  intros Hm Hk st b st' H. apply bind_returns in H as (a & s & Ha & Hb).
  apply Hm in Ha. subst s. exact (Hk a _ _ _ Hb).
Qed.

Lemma quiet_at_line {A} (line : nat) (m : M A) :
  returns_quietly m -> returns_quietly (at_line line m).
Proof.
  intros Hm st b st'. unfold at_line. destruct (m st) as [[a|e] s] eqn:H; [|discriminate].
  intros [= <- <-]. exact (Hm _ _ _ H).
Qed.

(** A handler that raises in its turn. *)
Lemma quiet_try_except {A} (m : M A) (caught : exn -> bool) (handler : exn -> M A) :
  returns_quietly m ->
  (forall e st a st', handler e st <> (Ret a, st')) ->
  returns_quietly (try_except m caught handler).
Proof.
  intros Hm Hh st b st'. unfold try_except. destruct (m st) as [[a|e] s] eqn:H.
  - intros [= <- <-]. exact (Hm _ _ _ H).
  - destruct (caught e); [|discriminate]. intros Hr. now elim (Hh e s b st').
Qed.

End Quiet.

Create HintDb quiet.
#[local] Hint Resolve quiet_ret quiet_raise quiet_lift quiet_exc_lineno : quiet.

Ltac stay_quiet :=
  repeat first
    [ progress (intros; cbv zeta)
    | solve [auto 1 with quiet]
    | apply quiet_bind
    | apply quiet_at_line
    | apply quiet_try_except; [|intros ? ? ? ?; unfold bind, exc_lineno, raise; discriminate]
    | match goal with
      | |- returns_quietly (if ?b then _ else _) => destruct b
      | |- returns_quietly (match ?v with _ => _ end) => destruct v
      end ].

Section StartupReturns.

Variable E : collaborators.

Lemma quiet_validation_str (key : string) (v : yaml) :
  returns_quietly (yaml_value_validation_str key v).
Proof. unfold yaml_value_validation_str, validation_error. stay_quiet. Qed.

Lemma quiet_validation_bool (key : string) (v : yaml) :
  returns_quietly (yaml_value_validation_bool key v).
Proof. unfold yaml_value_validation_bool, validation_error. stay_quiet. Qed.

Lemma quiet_validation_int (key : string) (v : yaml) :
  returns_quietly (yaml_value_validation_int key v).
Proof. unfold yaml_value_validation_int, validation_error. stay_quiet. Qed.

Lemma quiet_get_setting (cfg : yaml) (section key : string) :
  returns_quietly (get_setting cfg section key).
Proof. unfold get_setting. stay_quiet. Qed.

Lemma quiet_require_root_key (cfg : yaml) (key shown : string) (line : nat) :
  returns_quietly (require_root_key cfg key shown line).
Proof. unfold require_root_key. stay_quiet. Qed.

Hint Resolve quiet_validation_str quiet_validation_bool quiet_validation_int
  quiet_get_setting quiet_require_root_key : quiet.

Lemma quiet_container_logger (path : string) (size : Z) (entry : string * yaml)
    (loggers : list (string * logger)) :
  returns_quietly (create_docker_container_logger E path size entry loggers).
Proof. unfold create_docker_container_logger. stay_quiet. Qed.

Lemma quiet_container_loggers_from (path : string) (size : Z)
    (entries : list (string * yaml)) :
  forall loggers,
    returns_quietly (create_docker_container_loggers_from E path size entries loggers).
Proof.
  induction entries as [|entry rest IH]; intros loggers;
    cbn [create_docker_container_loggers_from].
  - apply quiet_ret.
  - apply quiet_bind; [apply quiet_container_logger | intros ?; apply IH].
Qed.

Hint Resolve quiet_container_loggers_from : quiet.

Lemma quiet_container_loggers (cfg : yaml) (path : string) (size : Z) :
  returns_quietly (create_docker_container_loggers E cfg path size).
Proof. unfold create_docker_container_loggers. stay_quiet. Qed.

(** The test of line 270 and the call of line 271. *)
Lemma log_directory_returns (path : string) (st st' : state) :
  (if negb (os_path_exists E path) then call_os_makedirs E path else ret tt) st
  = (Ret tt, st') ->
  st' = after st (if os_path_exists E path then [] else [Makedirs path])
  /\ (os_path_exists E path = false -> os_makedirs E path = Ret tt).
Proof.
  destruct (os_path_exists E path); cbn [negb].
  - intros [= <-]. split; [now rewrite after_nil | discriminate].
  - unfold call_os_makedirs, bind, emit, lift.
    destruct (os_makedirs E path) as [[]|e]; [|discriminate].
    intros [= <-]. now split.
Qed.

Lemma startup_handler_raises_again {A} (e : exn) (st st' : state) (a : A) :
  startup_handler e st <> (Ret a, st').
Proof.
  rewrite startup_handler_run. discriminate.
Qed.

End StartupReturns.

(** Takes the first statement off a sequence that has returned. *)
Ltac first_statement H name :=
  apply bind_returns in H as (? & ? & name & H); cbv beta zeta in H.

Ltac quiet_statement H lemma :=
  let Hq := fresh "Hq" in
  first_statement H Hq; apply lemma in Hq; subst.

(** The choice of lines 337 to 346: a format string or a number. *)
Lemma format_option_returns (v : yaml) :
  returns_quietly
    (if contains "%" (str_yaml v) then
       match v with
       | YStr t => ret (YStr (replace "'" EmptyString t))
       | other => raise (no_attribute other "replace")
       end
     else
       z <- yaml_value_validation_int "logging_format_option" v ;;
       ret (YInt z)).
Proof.
  destruct (contains "%" (str_yaml v)).
  - destruct v; first [apply quiet_ret | apply quiet_raise].
  - apply quiet_bind; [apply quiet_validation_int | intros z; apply quiet_ret].
Qed.

(** X16: when [populate_startup_variables] returns, the configuration it
    returns is the one read from [docker_log_redirect.yaml]; all it has
    done is to create the log directory it returns, when that did not
    exist, and the creation went well; the root logger was created in that
    directory; and the container loggers are those
    [create_docker_container_loggers] gives for that configuration and
    that directory, under the size limit of the root logger. *)
Theorem startup_returns_what_it_has_set_up (E : collaborators) (sv : startup_variables)
    (st st' : state) :
  populate_startup_variables E st = (Ret sv, st') ->
  read_yaml_config E "docker_log_redirect.yaml" = Ret (imported_yaml_read_config sv)
  /\ st' = after st (if os_path_exists E (central_log_path sv) then []
                     else [Makedirs (central_log_path sv)])
  /\ (os_path_exists E (central_log_path sv) = false ->
      os_makedirs E (central_log_path sv) = Ret tt)
  /\ exists max_log_file_size file_log_level console_log_level backup_log_count
            format_option handler_option,
       create_logger E (central_log_path sv) module_name "docker_log_redirect.log"
         max_log_file_size file_log_level console_log_level backup_log_count
         format_option handler_option
       = Ret (root_logger sv)
       /\ create_docker_container_loggers E (imported_yaml_read_config sv)
            (central_log_path sv) max_log_file_size st'
          = (Ret (docker_container_loggers sv), st').
Proof.
  unfold populate_startup_variables, try_except.
  match goal with |- (let (_, _) := ?body st in _) = _ -> _ =>
    destruct (body st) as [[sv0|e0] s0] eqn:H end.
  2:{ destruct (is_Exception e0); [|discriminate].
      intros Hr. now elim (startup_handler_raises_again e0 s0 st' sv). }
  intros [= -> ->].
  first_statement H Hread. injection Hread as Hread <-.
  do 4 quiet_statement H quiet_require_root_key.
  quiet_statement H quiet_get_setting.
  quiet_statement H quiet_validation_str.
  first_statement H Hdir.
  match type of Hdir with _ = (Ret ?u, _) => destruct u end.
  apply log_directory_returns in Hdir as [-> Hmade].
  quiet_statement H quiet_get_setting. quiet_statement H quiet_validation_bool.
  quiet_statement H quiet_get_setting. quiet_statement H quiet_validation_bool.
  quiet_statement H quiet_get_setting. quiet_statement H quiet_validation_int.
  do 5 quiet_statement H quiet_get_setting.
  do 2 quiet_statement H quiet_validation_str.
  do 2 quiet_statement H quiet_validation_int.
  quiet_statement H format_option_returns.
  first_statement H Hroot. injection Hroot as Hroot <-.
  first_statement H Hloggers.
  pose proof (quiet_container_loggers _ _ _ _ _ _ _ Hloggers) as ->.
  do 7 quiet_statement H quiet_get_setting.
  quiet_statement H quiet_validation_str.
  do 2 quiet_statement H quiet_validation_bool.
  do 4 quiet_statement H quiet_validation_str.
  injection H as <- <-. cbn [imported_yaml_read_config central_log_path root_logger
                              docker_container_loggers].
  split; [exact Hread|]. split; [reflexivity|]. split; [exact Hmade|].
  do 6 eexists. split; [exact Hroot | exact Hloggers].
Qed.

Lemma startup_returns_what_it_has_set_up_witness :
  exists sv st',
    populate_startup_variables log_directory_is_missing initial_state = (Ret sv, st')
    /\ trace st' = [Makedirs "/var/log/docker"]
    /\ docker_container_loggers sv = [("web", "web")]
    /\ st' = after initial_state
               (if os_path_exists log_directory_is_missing (central_log_path sv) then []
                else [Makedirs (central_log_path sv)]).
Proof.
  eexists _, _. split; [lazy; reflexivity|]. split; [reflexivity|]. split; [reflexivity|].
  refine (proj1 (proj2 (startup_returns_what_it_has_set_up log_directory_is_missing _
                          initial_state _ _))).
  lazy; reflexivity.
Defined.

(* ===================================================================== *)
(** * [main]: a pass that went well, and alerts that fail *)
(* ===================================================================== *)
Lemma reported_singletons (containers : list (string * logger)) :
  forall choices,
    reported containers choices = map (fun entry => [entry]) (concat (reported containers choices)).
Proof.
  induction containers as [|d ds IH]; intros [|[s|] cs]; cbn [reported concat map app];
    try reflexivity; [f_equal|]; apply IH.
Qed.

Lemma pass_results_are_singletons (E : collaborators) (root : logger)
    (containers : list (string * logger)) (results : list (list status_entry))
    (st st' : state) :
  create_docker_log_threads E containers root st = (Ret results, st') ->
  results = map (fun entry => [entry]) (concat results).
Proof.
  rewrite create_docker_log_threads_unfold. intros H.
  destruct (pass_steps_return _ _ _ _ _ _ _ H) as (-> & _ & _).
  cbn [app]. apply reported_singletons.
Qed.

Section Main.

Variables (E : collaborators) (sv : startup_variables).

Let root := root_logger sv.
Let settings := startup_email_settings sv.

(** The body of the two nested loops of lines 446 to 467. *)
Let report_result (total : nat) (index_value : nat * status_entry) : M unit :=
  if email_alerts sv then
    emit (Log root INFO
            ("Sending email. Entry " ++ str_nat (fst index_value + 1) ++ " of "
             ++ str_nat total)) ;;
    at_line 463
      (call_send_email E settings
         ("Docker Log Redirect Event for " ++ container_name (snd index_value)
          ++ ". Status = " ++ str_status (Status (snd index_value)))
         ("A docker redirect event has occured. Status of the docker log redirect = "
          ++ str_status (Status (snd index_value)))
         root)
  else
    emit (Log root INFO "Email alerting is disabled. The found log event is not be sent").

Lemma results_are_reported (total : nat) (entries : list status_entry) :
  (email_alerts sv = true ->
   forall subject body, send_email E settings subject body root = Ret tt) ->
  forall st,
    for_each (map (fun entry => [entry]) entries)
      (fun d => for_each (enumerate_from 0 d) (report_result total)) st
    = (Ret tt, after st (flat_map (result_notes root (email_alerts sv) total) entries)).
Proof.
  intros Hsend. induction entries as [|entry entries IH]; intros st.
  - cbn [map for_each flat_map]. unfold ret. now rewrite after_nil.
  - cbn [map for_each flat_map enumerate_from]. unfold bind at 1 2.
    unfold report_result at 1, result_notes at 1. cbn [fst snd].
    destruct (email_alerts sv) eqn:Halerts.
    + unfold call_send_email. step_monad. rewrite (Hsend eq_refl).
      cbn [live trace tb_lineno].
      match goal with |- context [for_each _ _ ?s] => rewrite (IH s) end.
      unfold after; cbn [live trace tb_lineno]. rewrite <- !app_assoc. reflexivity.
    + step_monad.
      match goal with |- context [for_each _ _ ?s] => rewrite (IH s) end.
      unfold after; cbn [live trace tb_lineno]. rewrite <- !app_assoc. reflexivity.
Qed.

End Main.

(** X17: when startup and the pass have gone well and the alerts, if they
    are enabled, can be sent, [main] returns: for every entry of the result
    list, in order, it has sent one alert that names the container and the
    status, or, with alerts disabled, logged that none is sent, and its
    last line announces the sleep.  The progress line of every alert reads
    [Entry 1]. *)
Theorem results_are_forwarded_for_alerting (E : collaborators) (sv : startup_variables)
    (results : list (list status_entry)) (st st1 st2 : state) :
  populate_startup_variables E st = (Ret sv, st1) ->
  create_docker_log_threads E (docker_container_loggers sv) (root_logger sv)
    (after st1 (banner (root_logger sv)))
  = (Ret results, st2) ->
  (email_alerts sv = true ->
   forall subject body,
     send_email E (startup_email_settings sv) subject body (root_logger sv) = Ret tt) ->
  main E st
  = (Ret tt,
     after st2
       (flat_map (result_notes (root_logger sv) (email_alerts sv) (List.length results))
          (concat results)
        ++ [goes_to_sleep (root_logger sv)])).
Proof.
  intros Hpop Hpass Hsend.
  pose proof (pass_results_are_singletons _ _ _ _ _ _ Hpass) as Hshape.
  unfold main, bind at 1. rewrite Hpop. cbv zeta.
  rewrite bind_emit; cbv beta. rewrite bind_emit; cbv beta.
  rewrite bind_emit; cbv beta. rewrite !after_after. cbn [app].
  fold (banner (root_logger sv)).
  unfold bind at 1, try_except at 1, bind at 1, at_line at 1.
  rewrite Hpass. cbv beta iota zeta.
  set (total := List.length results). rewrite Hshape at 1.
  rewrite (results_are_reported E sv total (concat results) Hsend st2).
  cbv beta iota. unfold emit, goes_to_sleep, after. cbn [live trace tb_lineno].
  now rewrite <- app_assoc.
Qed.

Lemma results_are_forwarded_for_alerting_witness :
  emailed (trace (snd (main all_succeed initial_state)))
  = ["Docker Log Redirect Event for web. Status = Started"]
  /\ exists sv results st1 st2,
       populate_startup_variables all_succeed initial_state = (Ret sv, st1)
       /\ create_docker_log_threads all_succeed (docker_container_loggers sv)
            (root_logger sv) (after st1 (banner (root_logger sv)))
          = (Ret results, st2)
       /\ main all_succeed initial_state
          = (Ret tt,
             after st2
               (flat_map (result_notes (root_logger sv) (email_alerts sv)
                            (List.length results)) (concat results)
                ++ [goes_to_sleep (root_logger sv)])).
Proof.
  split; [reflexivity|].
  eexists _, _, _, _. split; [lazy; reflexivity|]. split; [lazy; reflexivity|].
  eapply results_are_forwarded_for_alerting; [lazy; reflexivity | lazy; reflexivity|].
  intros _ subject body. reflexivity.
Defined.

(** The handler of [main] always ends the process, and before it does it
    prints and logs the error, with the line of [main] the error passed
    through. *)
Lemma main_handler_exits (E : collaborators) (root : logger) (alerts errors : bool)
    (settings : email_settings) (err : exn) (st : state) :
  exists tail,
    main_handler E root alerts errors settings err st
    = (Raise SystemExit,
       after st (error_report_at E root (str_exn err) (tb_lineno st) ++ tail)).
Proof.
  unfold main_handler, call_send_email.
  destruct errors, alerts; cbn [andb negb]; step_monad.
  - match goal with |- context [send_email E ?a ?b ?c ?d] =>
      destruct (send_email E a b c d) as [[]|[m|cls m|]] end;
      cbn [is_Exception live trace tb_lineno]; eexists;
      (apply f_equal2; [reflexivity|]);
      apply (f_equal (fun tr => mkState (live st) tr (tb_lineno st)));
      unfold error_report_at; rewrite <- !app_assoc; cbn [app]; reflexivity.
  - eexists. apply f_equal2; [reflexivity|].
    apply (f_equal (fun tr => mkState (live st) tr (tb_lineno st))).
    unfold error_report_at. rewrite <- !app_assoc. cbn [app]. reflexivity.
  - eexists. apply f_equal2; [reflexivity|].
    apply (f_equal (fun tr => mkState (live st) tr (tb_lineno st))).
    unfold error_report_at. rewrite <- !app_assoc. cbn [app]. reflexivity.
  - eexists. apply f_equal2; [reflexivity|].
    apply (f_equal (fun tr => mkState (live st) tr (tb_lineno st))).
    unfold error_report_at. rewrite <- !app_assoc. cbn [app]. reflexivity.
Qed.

(** X18: when the alert for the first entry of the result list cannot be
    sent, no further entry is reported.  An error of [send_email] that
    [except ValueError] (line 469) does not catch, being no instance of
    [ValueError] nor of a class that derives from it, leaves [main]
    unhandled: nothing is printed or logged about it.  An error that the
    clause catches, a [UnicodeEncodeError] for one, is handled like an
    error of the pass: it is printed and logged, with line 463, and the
    process exits. *)
Theorem failed_alert_ends_the_reporting (E : collaborators) (sv : startup_variables)
    (entry : status_entry) (more : list (list status_entry)) (err : exn)
    (st st1 st2 : state) :
  populate_startup_variables E st = (Ret sv, st1) ->
  create_docker_log_threads E (docker_container_loggers sv) (root_logger sv)
    (after st1 (banner (root_logger sv)))
  = (Ret ([entry] :: more), st2) ->
  email_alerts sv = true ->
  send_email E (startup_email_settings sv) (result_subject entry) (result_body entry)
    (root_logger sv)
  = Raise err ->
  let told := (trace st2
               ++ result_notes (root_logger sv) true (S (List.length more)) entry)%list in
  (is_ValueError err = false ->
   main E st = (Raise err, mkState (live st2) told 463))
  /\ (is_ValueError err = true ->
      exists tail,
        main E st
        = (Raise SystemExit,
           mkState (live st2)
             (told ++ error_report_at E (root_logger sv) (str_exn err) 463 ++ tail)
             463)).
Proof.
  intros Hpop Hpass Halerts Hsend told.
  assert (Hbody :
    main E st
    = let (o, st') :=
        if is_ValueError err
        then main_handler E (root_logger sv) (email_alerts sv) (alert_program_errors sv)
               (startup_email_settings sv) err (mkState (live st2) told 463)
        else (Raise err, mkState (live st2) told 463) in
      match o with
      | Ret _ => emit (goes_to_sleep (root_logger sv)) st'
      | Raise e => (Raise e, st')
      end).
  { unfold main, bind at 1. rewrite Hpop. cbv zeta.
    rewrite bind_emit; cbv beta. rewrite bind_emit; cbv beta.
    rewrite bind_emit; cbv beta. rewrite !after_after. cbn [app].
    fold (banner (root_logger sv)).
    unfold bind at 1, try_except at 1, bind at 1, at_line at 1.
    rewrite Hpass. cbv beta iota zeta.
    cbn [for_each enumerate_from fst snd List.length]. rewrite Halerts.
    unfold bind at 1 2 3, emit at 1, at_line at 1, call_send_email at 1.
    unfold bind at 1, emit at 1, lift at 1. cbn [live trace tb_lineno].
    unfold result_subject, result_body in Hsend. rewrite Hsend.
    subst told. unfold result_notes, result_subject, result_body.
    rewrite <- !app_assoc. cbn [app].
    destruct (is_ValueError err); reflexivity. }
  split; intros Herr; rewrite Hbody, Herr; [reflexivity|].
  destruct (main_handler_exits E (root_logger sv) (email_alerts sv) (alert_program_errors sv)
              (startup_email_settings sv) err (mkState (live st2) told 463)) as [tail ->].
  exists tail. unfold after; cbn [live trace tb_lineno]. reflexivity.
Qed.

Lemma failed_alert_ends_the_reporting_witness :
  main mail_server_is_down initial_state
  = (Raise (OtherException "ConnectionRefusedError" "[Errno 111] Connection refused"),
     mkState (live (snd (main mail_server_is_down initial_state)))
       (trace (snd (main mail_server_is_down initial_state))) 463)
  /\ fst (main mail_cannot_be_encoded initial_state) = Raise SystemExit.
Proof.
  split.
  - edestruct (failed_alert_ends_the_reporting mail_server_is_down)
      with (st := initial_state) as [Hescapes _];
      [lazy; reflexivity | lazy; reflexivity | reflexivity | lazy; reflexivity |].
    rewrite (Hescapes eq_refl). reflexivity.
  - edestruct (failed_alert_ends_the_reporting mail_cannot_be_encoded)
      with (st := initial_state) as [_ Hhandled];
      [lazy; reflexivity | lazy; reflexivity | reflexivity | lazy; reflexivity |].
    destruct (Hhandled eq_refl) as [tail ->]. reflexivity.
Defined.
